(** * Device pairing and claiming (tronbyt_server/device_claim.py)

    A shallow embedding of the pairing-token issuer, the claim processor and
    the device-id validator, together with the part of the record store
    (the tables [device_pairing_tokens] and [devices]) they talk to.

    Conventions.
    - A Python [str] is a [string]; each character stands for one code point
      in the range U+0000..U+00FF.
    - An instant is a [Z]: microseconds since the epoch, in UTC.
    - A store call ([.execute()]) either is served or raises; which one is
      decided by a script of outcomes carried in the state. *)

From Stdlib Require Import ZArith Ascii String List Bool Lia DecimalString.
From stdpp Require Import gmap strings list fin_maps.

Import ListNotations.
Local Open Scope string_scope.
Local Open Scope Z_scope.

(** ** Python built-ins used by the module *)

Module Py.

Definition ord (c : ascii) : Z := Z.of_N (N_of_ascii c).

(** [len(s)] *)
Definition len (s : string) : Z := Z.of_nat (String.length s).

(** Truth value of a string: the empty string is falsy. *)
Definition truthy (s : string) : bool :=
  match s with
  | EmptyString => false
  | String _ _ => true
  end.

(** [s[:n]] for a natural [n]: at most the first [n] characters. *)
Fixpoint prefix (n : nat) (s : string) : string :=
  match n, s with
  | S k, String c r => String c (prefix k r)
  | _, _ => EmptyString
  end.

(** [s.endswith(suffix)] *)
Definition endswith (s suffix : string) : bool :=
  let n := String.length s in
  let m := String.length suffix in
  (m <=? n)%nat && String.eqb (String.substring (n - m) m s) suffix.

(** [s[:-1]] *)
Definition drop_last (s : string) : string :=
  prefix (String.length s - 1) s.

(** *** [int(s, base)] on a [str]

    CPython: [PyLong_FromUnicodeObject] first rewrites the text with
    [_PyUnicode_TransformDecimalAndSpaceToASCII] and then hands the buffer
    to [PyLong_FromString]. *)

(** [Py_ISSPACE]: the ASCII white space of the C locale. *)
Definition Py_ISSPACE (c : ascii) : bool :=
  let n := ord c in
  ((9 <=? n) && (n <=? 13)) || (n =? 32).

(** [Py_UNICODE_ISSPACE] restricted to U+0000..U+00FF. *)
Definition Py_UNICODE_ISSPACE (c : ascii) : bool :=
  let n := ord c in
  ((9 <=? n) && (n <=? 13)) || ((28 <=? n) && (n <=? 32))
  || (n =? 133) || (n =? 160).

(** [_PyLong_DigitValue]: 37 marks a character that is no digit in any
    base. *)
Definition PyLong_DigitValue (c : ascii) : Z :=
  let n := ord c in
  if (48 <=? n) && (n <=? 57) then n - 48
  else if (97 <=? n) && (n <=? 122) then n - 87
  else if (65 <=? n) && (n <=? 90) then n - 55
  else 37.

Fixpoint is_ascii (s : string) : bool :=
  match s with
  | EmptyString => true
  | String c r => (ord c <? 128) && is_ascii r
  end.

(** The loop of the transformation: code points below 127 are kept, white
    space becomes a blank, a decimal digit would become its ASCII digit
    (there is none in U+007F..U+00FF), and anything else is replaced by a
    question mark, where the output is cut. *)
Fixpoint transform_loop (s : string) : string :=
  match s with
  | EmptyString => EmptyString
  | String c r =>
      if ord c <? 127 then String c (transform_loop r)
      else if Py_UNICODE_ISSPACE c then String " "%char (transform_loop r)
      else String "?"%char EmptyString
  end.

Definition TransformDecimalAndSpaceToASCII (s : string) : string :=
  if is_ascii s then s else transform_loop s.

Fixpoint skip_space (s : string) : string :=
  match s with
  | String c r => if Py_ISSPACE c then skip_space r else s
  | EmptyString => s
  end.

Definition take_sign (s : string) : Z * string :=
  match s with
  | String "+"%char r => (1, r)
  | String "-"%char r => (-1, r)
  | _ => (1, s)
  end.

(** The base prefix ([0x] for 16, [0o] for 8, [0b] for 2), after which one
    underscore is allowed. *)
Definition skip_base_prefix (base : Z) (s : string) : string :=
  match s with
  | String "0"%char (String c r) =>
      if ((base =? 16) && (Ascii.eqb c "x" || Ascii.eqb c "X"))
         || ((base =? 8) && (Ascii.eqb c "o" || Ascii.eqb c "O"))
         || ((base =? 2) && (Ascii.eqb c "b" || Ascii.eqb c "B"))
      then match r with
           | String "_"%char r' => r'
           | _ => r
           end
      else s
  | _ => s
  end.

(** The digit scan: digits of the base and single underscores between
    them. [prev_us] records that the previous character was an underscore;
    two in a row, or one at the end, is a syntax error. Returns the value
    read and the text that is left. *)
Fixpoint scan_digits (base : Z) (s : string) (prev_us : bool) (acc : Z)
  : option (Z * string) :=
  match s with
  | String c r =>
      if Ascii.eqb c "_" then
        if prev_us then None else scan_digits base r true acc
      else if PyLong_DigitValue c <? base then
        scan_digits base r false (acc * base + PyLong_DigitValue c)
      else if prev_us then None else Some (acc, s)
  | EmptyString => if prev_us then None else Some (acc, s)
  end.

(** [PyLong_FromString(str, &end, base)] for a base other than 0: the value
    and the position where parsing ended, or [None] for a syntax error. A
    NUL character ends the C buffer. *)
Definition PyLong_FromString (str : string) (base : Z) : option (Z * string) :=
  let '(sign, s) := take_sign (skip_space str) in
  let start := skip_base_prefix base s in
  match start with
  | String "_"%char _ => None
  | _ =>
      match scan_digits base start false 0 with
      | None => None
      | Some (v, rest) =>
          if (String.length rest =? String.length start)%nat then None
          else
            let tail := skip_space rest in
            match tail with
            | EmptyString => Some (sign * v, tail)
            | String c _ => if ord c =? 0 then Some (sign * v, tail) else None
            end
      end
  end.

(** [int(u, base)]: [None] stands for [ValueError]. Parsing must end at the
    end of the text (no embedded NUL). *)
Definition int (u : string) (base : Z) : option Z :=
  match PyLong_FromString (TransformDecimalAndSpaceToASCII u) base with
  | Some (v, EmptyString) => Some v
  | _ => None
  end.

End Py.

(** ** Device-id validator *)

(** [validate_device_id], lines 212-227. *)
Definition validate_device_id (device_id : string) : bool :=
  if negb (Py.truthy device_id) || negb (Py.len device_id =? 8) then false
  else match Py.int device_id 16 with
       | Some _ => true
       | None => false
       end.

(** What the docstring asks for: eight characters, each a hexadecimal
    digit. *)
Definition is_hex_char (c : ascii) : bool :=
  let n := Py.ord c in
  ((48 <=? n) && (n <=? 57)) || ((97 <=? n) && (n <=? 102))
  || ((65 <=? n) && (n <=? 70)).

Fixpoint all_hex (s : string) : bool :=
  match s with
  | EmptyString => true
  | String c r => is_hex_char c && all_hex r
  end.

Definition eight_hex_characters (s : string) : bool :=
  (String.length s =? 8)%nat && all_hex s.


(** ** Exceptions and outcomes *)

(** A raised exception: FastAPI's [HTTPException], or any other exception,
    of which the class name and [str(e)] are kept. *)
Inductive exception : Type :=
| HTTPException (status_code : Z) (detail : string)
| Error (class_name : string) (text : string).

(** [str(e)]; for an [HTTPException] it is the status code and the detail,
    separated by a colon. *)
Definition str (e : exception) : string :=
  match e with
  | HTTPException c d => NilZero.string_of_int (Z.to_int c) ++ ": " ++ d
  | Error _ t => t
  end.

Inductive outcome (A : Type) : Type :=
| Returned (a : A)
| Raised (e : exception).
Arguments Returned {A} a.
Arguments Raised {A} e.

(** ** Data model *)

(** [datetime]: aware (an instant) or naive (a wall-clock reading without
    offset). *)
Inductive datetime : Type :=
| Aware (utc : Z)
| Naive (wall : Z).

Definition minutes (n : Z) : Z := n * 60 * 1000000.

(** Pairing token validity period (minutes) *)
Definition PAIRING_TOKEN_VALIDITY_MINUTES : Z := 30.

Module PairingToken.
Record t : Type := mk
  { device_id : string;
    token : string;
    expires_at : Z }.
End PairingToken.

Module ClaimResult.
Record t : Type := mk
  { success : bool;
    device_id : option string;
    message : string }.
End ClaimResult.

(** A row of table [device_pairing_tokens]. Columns the database fills in
    by itself and the module never reads in these functions (surrogate key,
    [created_at]) are left out. *)
Module TokenRow.
Record t : Type := mk
  { device_id : string;
    token : string;
    expires_at : string;
    claimed_by : option string;
    claimed_at : option string }.
End TokenRow.

(** A row of table [devices], which is keyed by its [id] column. *)
Module DeviceRow.
Record t : Type := mk
  { user_id : option string;
    name : string;
    api_key : option string }.
End DeviceRow.

Record Settings : Type :=
  { AUTH_MODE : string;
    SUPABASE_URL : string;
    SUPABASE_ANON_KEY : string;
    SUPABASE_SERVICE_ROLE_KEY : string }.

Record Store : Type :=
  { device_pairing_tokens : list TokenRow.t;
    devices : gmap string DeviceRow.t }.

(** The state a call runs in: the configuration, the two tables, and the
    outcomes of the store calls to come ([None]: served, [Some e]: raises
    [e]; past the end of the script every call is served). *)
Record World : Type :=
  { settings : Settings;
    store : Store;
    script : list (option exception) }.

Definition with_script (w : World) (sc : list (option exception)) : World :=
  {| settings := settings w; store := store w; script := sc |}.

(** ** A state-and-exception monad *)

Definition M (A : Type) : Type := World -> outcome A * World.

Definition ret {A} (a : A) : M A := fun w => (Returned a, w).

Definition raise {A} (e : exception) : M A := fun w => (Raised e, w).

Definition bind {A B} (m : M A) (k : A -> M B) : M B :=
  fun w =>
    match m w with
    | (Returned a, w') => k a w'
    | (Raised e, w') => (Raised e, w')
    end.

(** [try: m  except Exception as e: handler e] *)
Definition try_except {A} (m : M A) (handler : exception -> M A) : M A :=
  fun w =>
    match m w with
    | (Returned a, w') => (Returned a, w')
    | (Raised e, w') => handler e w'
    end.

Definition lift {A} (r : exception + A) : M A :=
  match r with
  | inl e => raise e
  | inr a => ret a
  end.

Notation "'let*' x ':=' m 'in' k" := (bind m (fun x => k))
  (at level 10, x name, m at level 100, k at level 200).

(** ** The record store *)

Definition is_null {A} (o : option A) : bool :=
  match o with
  | None => true
  | Some _ => false
  end.

(** One round trip to the store: the next entry of the script decides
    whether the query is served. A call that raises changes no table. *)
Definition execute {A} (query : Store -> A * Store) : M A :=
  fun w =>
    match script w with
    | Some e :: rest => (Raised e, with_script w rest)
    | _ =>
        let '(a, s) := query (store w) in
        (Returned a,
         {| settings := settings w; store := s; script := tl (script w) |})
    end.

(** The next [n] store calls are served. *)
Definition served (n : nat) (w : World) : bool :=
  forallb is_null (firstn n (script w)).

(** [table("device_pairing_tokens").select("*").eq("token", t)
     .is_("claimed_by", "null")] *)
Definition unclaimed_with_token (t : string) (r : TokenRow.t) : bool :=
  String.eqb (TokenRow.token r) t && is_null (TokenRow.claimed_by r).

Definition select_unclaimed_tokens (t : string) (s : Store)
  : list TokenRow.t * Store :=
  (List.filter (unclaimed_with_token t) (device_pairing_tokens s), s).

(** [table("devices").select("user_id").eq("id", d)] *)
Definition select_device_owner (d : string) (s : Store)
  : list (option string) * Store :=
  (match devices s !! d with
   | Some row => [DeviceRow.user_id row]
   | None => []
   end, s).

(** [table("devices").upsert({"id": d, "user_id": u, "name": n})]: a new row
    takes the defaults for the columns not given; on a conflict on the key
    only the columns given are overwritten. *)
Definition upsert_row (u n : string) (old : option DeviceRow.t) : DeviceRow.t :=
  match old with
  | Some row =>
      DeviceRow.mk (Some u) n (DeviceRow.api_key row)
  | None => DeviceRow.mk (Some u) n None
  end.

Definition upsert_device (d u n : string) (s : Store) : unit * Store :=
  (tt, {| device_pairing_tokens := device_pairing_tokens s;
          devices := <[d := upsert_row u n (devices s !! d)]> (devices s) |}).

(** [table("device_pairing_tokens").update({"claimed_by": u,
     "claimed_at": at}).eq("token", t)] *)
Definition mark_row (t u stamp : string) (r : TokenRow.t) : TokenRow.t :=
  if String.eqb (TokenRow.token r) t then
    TokenRow.mk (TokenRow.device_id r) (TokenRow.token r)
      (TokenRow.expires_at r) (Some u) (Some stamp)
  else r.

Definition update_claimed (t u stamp : string) (s : Store) : unit * Store :=
  (tt, {| device_pairing_tokens := map (mark_row t u stamp) (device_pairing_tokens s);
          devices := devices s |}).

(** [table("device_pairing_tokens").delete().eq("device_id", d)] *)
Definition delete_tokens_of (d : string) (s : Store) : unit * Store :=
  (tt, {| device_pairing_tokens :=
            List.filter (fun r => negb (String.eqb (TokenRow.device_id r) d))
              (device_pairing_tokens s);
          devices := devices s |}).

(** [table("device_pairing_tokens").insert(row)]: the response carries the
    row inserted. *)
Definition insert_token (r : TokenRow.t) (s : Store) : list TokenRow.t * Store :=
  ([r], {| device_pairing_tokens := device_pairing_tokens s ++ [r];
           devices := devices s |}).

(** ** supabase_client.py *)

Definition _check_supabase_config (st : Settings) : bool :=
  String.eqb (AUTH_MODE st) "supabase"
  && Py.truthy (SUPABASE_URL st)
  && Py.truthy (SUPABASE_ANON_KEY st).

Definition get_supabase_admin_client : M unit :=
  fun w =>
    if negb (Py.truthy (SUPABASE_SERVICE_ROLE_KEY (settings w))) then
      (Raised (Error "RuntimeError"
         "Supabase service role key is not configured. Set SUPABASE_SERVICE_ROLE_KEY environment variable."), w)
    else if negb (_check_supabase_config (settings w)) then
      (Raised (Error "RuntimeError"
         "Supabase is not configured. Set AUTH_MODE=supabase and provide SUPABASE_URL environment variable."), w)
    else (Returned tt, w).

(** The admin client can be built from the settings. *)
Definition client_available (st : Settings) : bool :=
  Py.truthy (SUPABASE_SERVICE_ROLE_KEY st) && _check_supabase_config st.

(** ** device_claim.py *)

Definition invalid_or_expired : ClaimResult.t :=
  ClaimResult.mk false None "Invalid or expired pairing token".

Definition has_expired : ClaimResult.t :=
  ClaimResult.mk false None "Pairing token has expired".

Definition already_claimed : ClaimResult.t :=
  ClaimResult.mk false None "Device is already claimed by another user".

Definition claimed_successfully (device_id : string) : ClaimResult.t :=
  ClaimResult.mk true (Some device_id) "Device claimed successfully".

Definition failed_to_claim (e : exception) : ClaimResult.t :=
  ClaimResult.mk false None ("Failed to claim device: " ++ str e).

Definition naive_comparison : exception :=
  Error "TypeError" "can't compare offset-naive and offset-aware datetimes".

(** [now > expires_at] for an aware [now]: comparing with a naive datetime
    raises. *)
Definition now_after (now : Z) (expires_at : datetime) : exception + bool :=
  match expires_at with
  | Aware t => inr (t <? now)
  | Naive _ => inl naive_comparison
  end.

(** The two readings of [datetime.now(timezone.utc)] inside [claim_device]:
    at the expiry check (line 161) and for [claimed_at] (line 193). *)
Record Readings : Type :=
  { at_check : Z;
    at_mark : Z }.

Definition option_string_eqb (a b : option string) : bool :=
  match a, b with
  | Some x, Some y => String.eqb x y
  | None, None => true
  | _, _ => false
  end.

Section DeviceClaim.

(** [datetime.fromisoformat]: the datetime read, or the [ValueError]
    raised. *)
Variable fromisoformat : string -> exception + datetime.

(** [isoformat()] of an aware UTC datetime. *)
Variable isoformat : Z -> string.

(** Lines 156-158. *)
Definition parse_expires_at (expires_at_str : string) : exception + datetime :=
  let expires_at_str :=
    if Py.endswith expires_at_str "Z"
    then Py.drop_last expires_at_str ++ "+00:00"
    else expires_at_str in
  fromisoformat expires_at_str.

(** Lines 180-203: bind the device, mark the token, report success. *)
Definition bind_and_mark (user_id pairing_token device_id : string)
    (clock : Readings) : M ClaimResult.t :=
  let name := "Tronbyt-" ++ Py.prefix 4 device_id in
  let* _ := execute (upsert_device device_id user_id name) in
  let* _ := execute (update_claimed pairing_token user_id
                       (isoformat (at_mark clock))) in
  ret (claimed_successfully device_id).

(** [claim_device], lines 120-209. Logging is left out. *)
Definition claim_device (user_id pairing_token : string) (clock : Readings)
  : M ClaimResult.t :=
  let* _ := get_supabase_admin_client in
  try_except
    (let* token_response := execute (select_unclaimed_tokens pairing_token) in
     match token_response with
     | [] => ret invalid_or_expired
     | token_data :: _ =>
         let device_id := TokenRow.device_id token_data in
         let* expires_at := lift (parse_expires_at (TokenRow.expires_at token_data)) in
         let* expired := lift (now_after (at_check clock) expires_at) in
         if expired then ret has_expired
         else
           let* existing_device := execute (select_device_owner device_id) in
           let owned_by_other :=
             match existing_device with
             | existing_user_id :: _ =>
                 negb (option_string_eqb existing_user_id (Some user_id))
             | [] => false
             end in
           if owned_by_other then ret already_claimed
           else bind_and_mark user_id pairing_token device_id clock
     end)
    (fun e => ret (failed_to_claim e)).

(** [generate_pairing_token], lines 49-117. [token] is the draw of
    [secrets.token_urlsafe(32)], [now] the reading of the clock. *)
Definition generate_pairing_token (device_id : string) (token : string)
    (now : Z) : M PairingToken.t :=
  if negb (validate_device_id device_id) then
    raise (HTTPException 400 "Invalid device ID format. Must be 8 hex characters.")
  else
    let* _ := get_supabase_admin_client in
    let expires_at := now + minutes PAIRING_TOKEN_VALIDITY_MINUTES in
    try_except
      (let* _ := execute (delete_tokens_of device_id) in
       let* response :=
         execute (insert_token
                    (TokenRow.mk device_id token (isoformat expires_at)
                       None None)) in
       match response with
       | [] => raise (HTTPException 500 "Failed to create pairing token")
       | _ :: _ => ret (PairingToken.mk device_id token expires_at)
       end)
      (fun e =>
         match e with
         | HTTPException _ _ => raise e
         | Error _ _ =>
             raise (HTTPException 500 "Failed to generate pairing token")
         end).

End DeviceClaim.

(** ** An ISO 8601 codec for UTC instants

    The text [isoformat()] gives for an aware UTC datetime,
    [YYYY-MM-DDTHH:MM:SS+00:00] with [.ffffff] after the seconds when the
    microseconds are not zero, and a reader for that text (with or without
    the offset). It instantiates the two parameters of section
    [DeviceClaim] when the functions are run on concrete rows; the general
    results below do not depend on it. *)

Module IsoUtc.

Definition days_from_civil (y m d : Z) : Z :=
  let y := if m <=? 2 then y - 1 else y in
  let era := y / 400 in
  let yoe := y - era * 400 in
  let doy := (153 * (if 2 <? m then m - 3 else m + 9) + 2) / 5 + d - 1 in
  let doe := yoe * 365 + yoe / 4 - yoe / 100 + doy in
  era * 146097 + doe - 719468.

Definition civil_from_days (z : Z) : Z * Z * Z :=
  let z := z + 719468 in
  let era := z / 146097 in
  let doe := z - era * 146097 in
  let yoe := (doe - doe / 1460 + doe / 36524 - doe / 146096) / 365 in
  let doy := doe - (365 * yoe + yoe / 4 - yoe / 100) in
  let mp := (5 * doy + 2) / 153 in
  let d := doy - (153 * mp + 2) / 5 + 1 in
  let m := if mp <? 10 then mp + 3 else mp - 9 in
  ((if m <=? 2 then yoe + era * 400 + 1 else yoe + era * 400), m, d).

Definition digit (n : Z) : ascii := ascii_of_N (Z.to_N (48 + n mod 10)).

(** [n] written with [width] decimal digits, zero padded. *)
Fixpoint padded (width : nat) (n : Z) : string :=
  match width with
  | O => EmptyString
  | S k => padded k (n / 10) ++ String (digit n) EmptyString
  end.

Definition isoformat (t : Z) : string :=
  let us := t mod 1000000 in
  let secs := t / 1000000 in
  let sod := secs mod 86400 in
  let '(y, m, d) := civil_from_days (secs / 86400) in
  padded 4 y ++ "-" ++ padded 2 m ++ "-" ++ padded 2 d ++ "T"
  ++ padded 2 (sod / 3600) ++ ":" ++ padded 2 (sod / 60 mod 60) ++ ":"
  ++ padded 2 (sod mod 60)
  ++ (if us =? 0 then "" else "." ++ padded 6 us)
  ++ "+00:00".

(** A run of decimal digits as a number; [None] if another character
    occurs or the run is empty. *)
Fixpoint number_from (s : string) (acc : Z) : option Z :=
  match s with
  | EmptyString => Some acc
  | String c r =>
      let n := Py.ord c in
      if (48 <=? n) && (n <=? 57) then number_from r (acc * 10 + (n - 48))
      else None
  end.

Definition number (s : string) : option Z :=
  match s with
  | EmptyString => None
  | _ => number_from s 0
  end.

Definition field (from width : nat) (s : string) : option Z :=
  number (String.substring from width s).

Definition in_range (lo hi : Z) (o : option Z) : option Z :=
  match o with
  | Some n => if (lo <=? n) && (n <=? hi) then Some n else None
  | None => None
  end.

(** The wall-clock reading of [YYYY-MM-DDTHH:MM:SS] with an optional
    [.ffffff], in microseconds; any character may stand between the date
    and the time. *)
Definition wall_clock (s : string) : option Z :=
  if String.eqb (String.substring 4 1 s) "-"
     && String.eqb (String.substring 7 1 s) "-"
     && String.eqb (String.substring 13 1 s) ":"
     && String.eqb (String.substring 16 1 s) ":"
  then
    match in_range 1 9999 (field 0 4 s), in_range 1 12 (field 5 2 s),
          in_range 1 31 (field 8 2 s), in_range 0 23 (field 11 2 s),
          in_range 0 59 (field 14 2 s), in_range 0 59 (field 17 2 s) with
    | Some y, Some m, Some d, Some hh, Some mm, Some ss =>
        let secs := days_from_civil y m d * 86400 + hh * 3600 + mm * 60 + ss in
        match String.length s with
        | 19%nat => Some (secs * 1000000)
        | 26%nat =>
            if String.eqb (String.substring 19 1 s) "." then
              match field 20 6 s with
              | Some us => Some (secs * 1000000 + us)
              | None => None
              end
            else None
        | _ => None
        end
    | _, _, _, _, _, _ => None
    end
  else None.

Definition fromisoformat (s : string) : exception + datetime :=
  let invalid :=
    inl (Error "ValueError" ("Invalid isoformat string: '" ++ s ++ "'")) in
  if Py.endswith s "+00:00" then
    match wall_clock (Py.prefix (String.length s - 6) s) with
    | Some t => inr (Aware t)
    | None => invalid
    end
  else
    match wall_clock s with
    | Some t => inr (Naive t)
    | None => invalid
    end.

End IsoUtc.

(** ** The runs of [claim_device]

    Every way a call can go, as a relation between the state it starts in
    and its result, the tables it leaves and the number of store calls it
    made. [claim_device_run] below shows that each call follows one of
    them. *)

(** The row the token query hands to the caller: the first unclaimed row
    carrying the token. *)
Definition looked_up (t : string) (s : Store) : option TokenRow.t :=
  head (List.filter (unclaimed_with_token t) (device_pairing_tokens s)).

(** The test of lines 172-174. *)
Definition owned_by_other (u d : string) (s : Store) : bool :=
  match devices s !! d with
  | Some dev => negb (option_string_eqb (DeviceRow.user_id dev) (Some u))
  | None => false
  end.

Definition default_name (d : string) : string := "Tronbyt-" ++ Py.prefix 4 d.

(** The tables after the upsert of line 187, and after the update of
    line 190. *)
Definition bound (u d : string) (s : Store) : Store :=
  snd (upsert_device d u (default_name d) s).

Definition marked (t u stamp : string) (s : Store) : Store :=
  snd (update_claimed t u stamp s).

(** Store call number [n] (counted from 0) raises [e], the ones before it
    are served. *)
Definition raises_at (n : nat) (w : World) (e : exception) : Prop :=
  served n w = true /\ nth_error (script w) n = Some (Some e).

(** The state after [n] store calls that left the tables as [s]. *)
Definition after (n : nat) (w : World) (s : Store) : World :=
  {| settings := settings w; store := s; script := skipn n (script w) |}.

Section Runs.

Variable fromisoformat : string -> exception + datetime.
Variable isoformat : Z -> string.

(** The token query is served and finds [row], which parses to an aware
    instant not yet passed at the expiry check. *)
Inductive usable (t : string) (clk : Readings) (w : World) (row : TokenRow.t)
  : Prop :=
| usable_intro (x : Z) :
    served 1 w = true ->
    looked_up t (store w) = Some row ->
    parse_expires_at fromisoformat (TokenRow.expires_at row) = inr (Aware x) ->
    at_check clk <= x ->
    usable t clk w row.

Inductive claim_run (u t : string) (clk : Readings) (w : World)
  : ClaimResult.t -> Store -> nat -> Prop :=
| run_lookup_raises e :
    raises_at 0 w e ->
    claim_run u t clk w (failed_to_claim e) (store w) 1
| run_not_found :
    served 1 w = true ->
    looked_up t (store w) = None ->
    claim_run u t clk w invalid_or_expired (store w) 1
| run_unparsable row e :
    served 1 w = true ->
    looked_up t (store w) = Some row ->
    parse_expires_at fromisoformat (TokenRow.expires_at row) = inl e ->
    claim_run u t clk w (failed_to_claim e) (store w) 1
| run_naive row x :
    served 1 w = true ->
    looked_up t (store w) = Some row ->
    parse_expires_at fromisoformat (TokenRow.expires_at row) = inr (Naive x) ->
    claim_run u t clk w (failed_to_claim naive_comparison) (store w) 1
| run_expired row x :
    served 1 w = true ->
    looked_up t (store w) = Some row ->
    parse_expires_at fromisoformat (TokenRow.expires_at row) = inr (Aware x) ->
    x < at_check clk ->
    claim_run u t clk w has_expired (store w) 1
| run_owner_raises row e :
    usable t clk w row ->
    raises_at 1 w e ->
    claim_run u t clk w (failed_to_claim e) (store w) 2
| run_conflict row :
    usable t clk w row ->
    served 2 w = true ->
    owned_by_other u (TokenRow.device_id row) (store w) = true ->
    claim_run u t clk w already_claimed (store w) 2
| run_upsert_raises row e :
    usable t clk w row ->
    owned_by_other u (TokenRow.device_id row) (store w) = false ->
    raises_at 2 w e ->
    claim_run u t clk w (failed_to_claim e) (store w) 3
| run_mark_raises row e :
    usable t clk w row ->
    owned_by_other u (TokenRow.device_id row) (store w) = false ->
    raises_at 3 w e ->
    claim_run u t clk w (failed_to_claim e)
      (bound u (TokenRow.device_id row) (store w)) 4
| run_success row :
    usable t clk w row ->
    owned_by_other u (TokenRow.device_id row) (store w) = false ->
    served 4 w = true ->
    claim_run u t clk w (claimed_successfully (TokenRow.device_id row))
      (marked t u (isoformat (at_mark clk))
         (bound u (TokenRow.device_id row) (store w))) 4.

End Runs.

(** ** Claims in flight

    [claim_device] makes up to four round trips to the store and holds no
    lock between them. An attempt in flight is therefore at one of the
    points below; [advance] takes it through its next round trip and the
    local computation up to the following one. Several attempts (requests
    served by different workers) are run by a schedule that names, step by
    step, the attempt that moves. *)

Inductive phase : Type :=
| Lookup                          (* before the token query, line 137 *)
| OwnerCheck (device_id : string) (* before the devices query, line 168 *)
| Binding (device_id : string)    (* before the upsert, line 187 *)
| Marking (device_id : string)    (* before the token update, line 190 *)
| Finished (r : ClaimResult.t).

Record Attempt : Type :=
  { user_id : string;
    pairing_token : string;
    clock : Readings;
    at_phase : phase }.

Definition in_progress (p : phase) : bool :=
  match p with
  | Finished _ => false
  | _ => true
  end.

Definition begin (user_id pairing_token : string) (clock : Readings) : Attempt :=
  {| user_id := user_id; pairing_token := pairing_token; clock := clock;
     at_phase := Lookup |}.

Definition moved (a : Attempt) (p : phase) : Attempt :=
  {| user_id := user_id a; pairing_token := pairing_token a;
     clock := clock a; at_phase := p |}.

Definition result_of (a : Attempt) : option ClaimResult.t :=
  match at_phase a with
  | Finished r => Some r
  | _ => None
  end.

Section InFlight.

Variable fromisoformat : string -> exception + datetime.
Variable isoformat : Z -> string.

(** The body of the [try] from the current point to the next round trip. *)
Definition next_phase (a : Attempt) : M phase :=
  match at_phase a with
  | Lookup =>
      let* token_response :=
        execute (select_unclaimed_tokens (pairing_token a)) in
      match token_response with
      | [] => ret (Finished invalid_or_expired)
      | token_data :: _ =>
          let* expires_at :=
            lift (parse_expires_at fromisoformat (TokenRow.expires_at token_data)) in
          let* expired := lift (now_after (at_check (clock a)) expires_at) in
          if expired then ret (Finished has_expired)
          else ret (OwnerCheck (TokenRow.device_id token_data))
      end
  | OwnerCheck device_id =>
      let* existing_device := execute (select_device_owner device_id) in
      let owned_by_other :=
        match existing_device with
        | existing_user_id :: _ =>
            negb (option_string_eqb existing_user_id (Some (user_id a)))
        | [] => false
        end in
      if owned_by_other then ret (Finished already_claimed)
      else ret (Binding device_id)
  | Binding device_id =>
      let* _ := execute (upsert_device device_id (user_id a)
                           ("Tronbyt-" ++ Py.prefix 4 device_id)) in
      ret (Marking device_id)
  | Marking device_id =>
      let* _ := execute (update_claimed (pairing_token a) (user_id a)
                           (isoformat (at_mark (clock a)))) in
      ret (Finished (claimed_successfully device_id))
  | Finished r => ret (Finished r)
  end.

(** One move of an attempt; an exception ends it through the handler of
    line 204. *)
Definition advance (a : Attempt) (w : World) : Attempt * World :=
  match try_except (next_phase a)
          (fun e => ret (Finished (failed_to_claim e))) w with
  | (Returned p, w') => (moved a p, w')
  | (Raised _, w') => (a, w')
  end.

(** The attempts under a schedule: each entry is the index of the attempt
    that makes its next move. *)
Fixpoint run (schedule : list nat) (attempts : list Attempt) (w : World)
  : list Attempt * World :=
  match schedule with
  | [] => (attempts, w)
  | i :: rest =>
      match attempts !! i with
      | Some a =>
          let '(a', w') := advance a w in
          run rest (<[i := a']> attempts) w'
      | None => run rest attempts w
      end
  end.

(** Attempts made one after the other, each running [claim_device] to its
    end before the next begins. *)
Fixpoint claim_in_turn (requests : list (string * Readings))
    (pairing_token : string) (w : World)
  : list (outcome ClaimResult.t) * World :=
  match requests with
  | [] => ([], w)
  | (u, c) :: rest =>
      let '(r, w') := claim_device fromisoformat isoformat u pairing_token c w in
      let '(rs, w'') := claim_in_turn rest pairing_token w' in
      (r :: rs, w'')
  end.

End InFlight.

(** ** Sample data *)

Module Sample.

Definition configured : Settings :=
  {| AUTH_MODE := "supabase";
     SUPABASE_URL := "https://tronbyt.supabase.co";
     SUPABASE_ANON_KEY := "anon-key";
     SUPABASE_SERVICE_ROLE_KEY := "service-role-key" |}.

Definition world (tokens : list TokenRow.t) (devs : gmap string DeviceRow.t)
    (sc : list (option exception)) : World :=
  {| settings := configured;
     store := {| device_pairing_tokens := tokens; devices := devs |};
     script := sc |}.

(** 2024-05-01T12:30:00Z and a few instants around it. *)
Definition noon : Z := 1714566600000000.

Definition at_ (t : Z) : Readings := {| at_check := t; at_mark := t + 1000 |}.

Definition pending (device_id token : string) (expires : Z) : TokenRow.t :=
  TokenRow.mk device_id token (IsoUtc.isoformat expires) None None.

Definition owned (u name : string) : DeviceRow.t :=
  DeviceRow.mk (Some u) name (Some "k3y").

Definition claim := claim_device IsoUtc.fromisoformat IsoUtc.isoformat.
Definition generate := generate_pairing_token IsoUtc.isoformat.

Definition no_devices : gmap string DeviceRow.t := empty.

(** A device waiting to be claimed, its token good for another half hour. *)
Definition fresh_row : TokenRow.t := pending "a1b2c3d4" "tok-1" (noon + minutes 30).
Definition waiting : World := world [fresh_row] no_devices [].

(** The same device with a token that ran out five minutes ago. *)
Definition stale_row : TokenRow.t := pending "a1b2c3d4" "tok-0" (noon - minutes 5).
Definition lapsed : World := world [stale_row] no_devices [].

(** The device belongs to alice, who has renamed it; a fresh token and a
    stale one are out for it. *)
Definition alices : gmap string DeviceRow.t :=
  <["a1b2c3d4" := owned "alice" "Kitchen"]> no_devices.
Definition taken : World := world [fresh_row; stale_row] alices [].

(** A token that has been used. *)
Definition used_row : TokenRow.t :=
  TokenRow.mk "a1b2c3d4" "tok-1" (IsoUtc.isoformat (noon + minutes 30))
    (Some "alice") (Some (IsoUtc.isoformat noon)).
Definition nothing_out : World := world [] no_devices [].
Definition all_used : World := world [used_row] alices [].

(** The store drops the connection on the next call. *)
Definition unreachable : World :=
  world [fresh_row] no_devices [Some (Error "ConnectError" "connection reset")].

(** Two requests with the same token, served by two workers whose store
    calls alternate. *)
Definition racers : list Attempt :=
  [begin "alice" "tok-1" (at_ noon); begin "bob" "tok-1" (at_ (noon + 5))].
Definition alternating : list nat := [0; 1; 0; 1; 0; 1; 0; 1]%nat.

(** The firmware asks for a new token while [tok-1] is still out. *)
Definition reissued : World := snd (generate "a1b2c3d4" "tok-2" noon waiting).

(** The device has a record and no owner yet ([user_id] is null), and a
    fresh token is out for it. *)
Definition ownerless : DeviceRow.t := DeviceRow.mk None "Tronbyt-a1b2" None.
Definition registered : World :=
  world [fresh_row] (<["a1b2c3d4" := ownerless]> no_devices) [].

End Sample.

(** ** More of the code: clients, listing, endpoints, rate-limit key *)

(** *** supabase_client.py, the other functions *)

(** [get_supabase_client], lines 36-61, up to its guard: [Returned] stands
    for the guard of line 51 having passed, and [create_client] of line 61
    is taken to hand back a client. The cache of line 36 keeps the client
    of a call that returned; the settings do not change, so a later call
    ends as the first did. *)
Definition get_supabase_client : M unit :=
  fun w =>
    if negb (_check_supabase_config (settings w)) then
      (Raised (Error "RuntimeError"
         "Supabase is not configured. Set AUTH_MODE=supabase and provide SUPABASE_URL and SUPABASE_ANON_KEY environment variables."), w)
    else (Returned tt, w).

Definition is_supabase_enabled (st : Settings) : bool :=
  String.eqb (AUTH_MODE st) "supabase".

(** *** device_claim.py: [get_pending_devices] *)

(** What the listing shows of a row. The query also asks for [created_at],
    a column the database fills in and the model of the table leaves out. *)
Module PendingDevice.
Record t : Type := mk
  { device_id : string;
    expires_at : string }.
End PendingDevice.

Definition pending_of (r : TokenRow.t) : PendingDevice.t :=
  PendingDevice.mk (TokenRow.device_id r) (TokenRow.expires_at r).

Section Listing.

Variable fromisoformat : string -> exception + datetime.

(** The instant the [expires_at] column of a row holds: the column is a
    timestamp with time zone, and the text of the row is its rendering. *)
Definition expiry_instant (r : TokenRow.t) : option Z :=
  match parse_expires_at fromisoformat (TokenRow.expires_at r) with
  | inr (Aware t) => Some t
  | _ => None
  end.

(** [.is_("claimed_by", "null").gt("expires_at", now)] *)
Definition unclaimed_and_later (now : Z) (r : TokenRow.t) : bool :=
  is_null (TokenRow.claimed_by r)
  && match expiry_instant r with
     | Some t => now <? t
     | None => false
     end.

(** [table("device_pairing_tokens")
     .select("device_id, created_at, expires_at")
     .is_("claimed_by", "null").gt("expires_at", now)] *)
Definition select_pending (now : Z) (s : Store) : list PendingDevice.t * Store :=
  (map pending_of (List.filter (unclaimed_and_later now) (device_pairing_tokens s)),
   s).

(** [get_pending_devices], lines 230-258; [now] is the reading of the
    clock at line 246. *)
Definition get_pending_devices (user_id : string) (now : Z)
  : M (list PendingDevice.t) :=
  let* _ := get_supabase_admin_client in
  try_except
    (let* data := execute (select_pending now) in
     match data with
     | [] => ret []
     | _ :: _ => ret data
     end)
    (fun e => ret []).

End Listing.

(** *** supabase_auth.py: the dependencies of the protected routes *)

Module SupabaseUser.
Record t : Type := mk
  { id : string;
    email : string;
    username : string;
    is_admin : bool;
    theme_preference : string }.
End SupabaseUser.

(** [get_current_user], lines 43-105. It builds the anonymous client
    first (line 60), outside its [try]; what follows, reading the token
    from the request and verifying it with the auth service, ends in a user
    or in [None] and is given here by its result [found]. *)
Definition get_current_user (found : option SupabaseUser.t)
  : M (option SupabaseUser.t) :=
  let* _ := get_supabase_client in
  ret found.

(** [require_user], lines 108-128. The [WWW-Authenticate] header of the
    exception is not kept. *)
Definition require_user (user : option SupabaseUser.t) : M SupabaseUser.t :=
  match user with
  | None => raise (HTTPException 401 "Not authenticated")
  | Some u => ret u
  end.

(** *** routers/supabase_auth.py: the two pairing routes *)

Inductive json : Type :=
| JNull
| JBool (b : bool)
| JString (s : string).

Definition json_of_optional (o : option string) : json :=
  match o with
  | Some s => JString s
  | None => JNull
  end.

Module JSONResponse.
Record t : Type := mk
  { status_code : Z;
    content : list (string * json) }.
End JSONResponse.

Definition not_enabled : exception :=
  HTTPException 400 "Supabase authentication is not enabled".

(** The settings as a computation reads them. *)
Definition get_settings : M Settings := fun w => (Returned (settings w), w).

Section Routes.

Variable fromisoformat : string -> exception + datetime.
Variable isoformat : Z -> string.

(** [claim_device_endpoint], lines 246-284. FastAPI resolves
    [Depends(require_user)], and with it [get_current_user], before it runs
    the body. *)
Definition claim_device_endpoint (pairing_token : string)
    (found : option SupabaseUser.t) (clock : Readings) : M JSONResponse.t :=
  let* user := get_current_user found in
  let* user := require_user user in
  let* st := get_settings in
  if negb (is_supabase_enabled st) then raise not_enabled
  else
    let* result :=
      claim_device fromisoformat isoformat (SupabaseUser.id user)
        pairing_token clock in
    if ClaimResult.success result then
      ret (JSONResponse.mk 200
             [("success", JBool true);
              ("device_id", json_of_optional (ClaimResult.device_id result));
              ("message", JString (ClaimResult.message result))])
    else
      ret (JSONResponse.mk 400
             [("success", JBool false);
              ("message", JString (ClaimResult.message result))]).

(** [generate_pairing_token_endpoint], lines 287-317. *)
Definition generate_pairing_token_endpoint (device_id : string)
    (token : string) (now : Z) : M JSONResponse.t :=
  let* st := get_settings in
  if negb (is_supabase_enabled st) then raise not_enabled
  else
    let* token := generate_pairing_token isoformat device_id token now in
    ret (JSONResponse.mk 201
           [("device_id", JString (PairingToken.device_id token));
            ("token", JString (PairingToken.token token));
            ("expires_at", JString (isoformat (PairingToken.expires_at token)))]).

End Routes.

(** The preview of an API key in [list_api_keys], line 386. *)
Definition token_preview (token : string) : string :=
  if Py.truthy token then Py.prefix 8 token ++ "..." else "".

(** *** rate_limit.py: [get_rate_limit_key] *)

Module Text.

(** [str.lower] on U+0000..U+00FF. *)
Definition lower_char (c : ascii) : ascii :=
  let n := Py.ord c in
  if ((65 <=? n) && (n <=? 90))
     || ((192 <=? n) && (n <=? 222) && negb (n =? 215))
  then ascii_of_N (Z.to_N (n + 32))
  else c.

Fixpoint lower (s : string) : string :=
  match s with
  | EmptyString => EmptyString
  | String c r => String (lower_char c) (lower r)
  end.

(** [s.split(",")[0]]: the text before the first comma. *)
Fixpoint before_comma (s : string) : string :=
  match s with
  | EmptyString => EmptyString
  | String c r =>
      if Ascii.eqb c "," then EmptyString else String c (before_comma r)
  end.

Fixpoint lstrip (s : string) : string :=
  match s with
  | String c r => if Py.Py_UNICODE_ISSPACE c then lstrip r else s
  | EmptyString => s
  end.

Fixpoint all_space (s : string) : bool :=
  match s with
  | EmptyString => true
  | String c r => Py.Py_UNICODE_ISSPACE c && all_space r
  end.

Fixpoint rstrip (s : string) : string :=
  match s with
  | EmptyString => EmptyString
  | String c r => if all_space s then EmptyString else String c (rstrip r)
  end.

(** [s.strip()] *)
Definition strip (s : string) : string := rstrip (lstrip s).

End Text.

(** The part of a Starlette request the function reads: the raw headers,
    their names in lower case as the server hands them over, and the host of
    the peer if it is known. *)
Module Request.
Record t : Type := mk
  { headers : list (string * string);
    client : option string }.
End Request.

(** [request.headers.get(key)]: the first header whose name is [key] in
    lower case. *)
Fixpoint raw_get (name : string) (raw : list (string * string)) : option string :=
  match raw with
  | [] => None
  | (k, v) :: rest => if String.eqb k name then Some v else raw_get name rest
  end.

Definition headers_get (request : Request.t) (key : string) : option string :=
  raw_get (Text.lower key) (Request.headers request).

Definition truthy_header (o : option string) : bool :=
  match o with
  | Some v => Py.truthy v
  | None => false
  end.

Definition header_text (o : option string) : string :=
  match o with
  | Some v => v
  | None => ""
  end.

(** [get_rate_limit_key], lines 33-60. *)
Definition get_rate_limit_key (request : Request.t) : string :=
  let forwarded_for := headers_get request "X-Forwarded-For" in
  if truthy_header forwarded_for then
    Text.strip (Text.before_comma (header_text forwarded_for))
  else
    let real_ip := headers_get request "X-Real-IP" in
    if truthy_header real_ip then header_text real_ip
    else
      match Request.client request with
      | Some host => host
      | None => "unknown"
      end.

(** *** More sample data *)

Module More.

Definition carol : SupabaseUser.t :=
  SupabaseUser.mk "carol" "carol@example.org" "carol" false "system".

(** The server runs with local accounts. *)
Definition local_mode : World :=
  {| settings := {| AUTH_MODE := "local"; SUPABASE_URL := "";
                    SUPABASE_ANON_KEY := ""; SUPABASE_SERVICE_ROLE_KEY := "" |};
     store := store Sample.waiting;
     script := [] |}.

(** The mode is set, the service-role key is missing. *)
Definition keyless : World :=
  {| settings := {| AUTH_MODE := "supabase";
                    SUPABASE_URL := "https://tronbyt.supabase.co";
                    SUPABASE_ANON_KEY := "anon-key";
                    SUPABASE_SERVICE_ROLE_KEY := "" |};
     store := store Sample.waiting;
     script := [] |}.

(** The store serves the delete and drops the insert. *)
Definition drops_insert : World :=
  Sample.world [Sample.fresh_row] Sample.no_devices
    [None; Some (Error "ReadTimeout" "timed out")].

(** The store serves the two reads and the upsert and drops the update. *)
Definition drops_update : World :=
  Sample.world [Sample.fresh_row] Sample.no_devices
    [None; None; None; Some (Error "ReadTimeout" "timed out")].

(** A row whose expiry is no timestamp. *)
Definition garbled_row : TokenRow.t :=
  TokenRow.mk "a1b2c3d4" "tok-3" "soon" None None.
Definition garbled : World :=
  Sample.world [garbled_row] Sample.no_devices [].

(** The state after alice has claimed the waiting device. *)
Definition claimed : World :=
  snd (Sample.claim "alice" "tok-1" (Sample.at_ Sample.noon) Sample.waiting).

(** A request that comes through a proxy, and one whose sender wrote the
    header itself. *)
Definition proxied : Request.t :=
  Request.mk [("host", "tronbyt.example.org");
              ("x-forwarded-for", " 203.0.113.9 , 10.0.0.1")]
    (Some "10.0.0.1").

End More.

(** * Results *)

(** ** The monad and the store *)

Lemma bind_returned {A B} (m : M A) (k : A -> M B) w a w' :
  m w = (Returned a, w') -> bind m k w = k a w'.
Proof. intros H. unfold bind. now rewrite H. Qed.

Lemma bind_raised {A B} (m : M A) (k : A -> M B) w e w' :
  m w = (Raised e, w') -> bind m k w = (Raised e, w').
Proof. intros H. unfold bind. now rewrite H. Qed.

Lemma client_available_ok w :
  client_available (settings w) = true ->
  get_supabase_admin_client w = (Returned tt, w).
Proof.
  unfold client_available, get_supabase_admin_client.
  intros H. apply andb_true_iff in H as [-> ->]. reflexivity.
Qed.

(** ** The script of store outcomes *)

Lemma tl_skipn {A} n (l : list A) : tl (skipn n l) = skipn (S n) l.
Proof.
  revert l. induction n as [|n IH]; intros [|x l]; cbn; try reflexivity.
  apply IH.
Qed.

Lemma skipn_at {A} n (l : list A) x :
  nth_error l n = Some x -> skipn n l = x :: skipn (S n) l.
Proof.
  revert l. induction n as [|n IH]; intros [|y l]; cbn; try discriminate.
  - now intros [= ->].
  - apply IH.
Qed.

Lemma all_null_next n (l : list (option exception)) :
  forallb is_null (firstn (S n) l) = true ->
  forall e rest, skipn n l <> Some e :: rest.
Proof.
  revert l. induction n as [|n IH]; intros [|x l]; cbn; try congruence.
  - destruct x; cbn; congruence.
  - intros [_ H]%andb_true_iff. now apply IH.
Qed.

Lemma all_null_cases n (l : list (option exception)) :
  forallb is_null (firstn n l) = true ->
  (exists e, nth_error l n = Some (Some e))
  \/ forallb is_null (firstn (S n) l) = true.
Proof.
  revert l. induction n as [|n IH]; intros [|x l]; cbn; auto.
  - destruct x as [e|]; eauto.
  - intros [-> H]%andb_true_iff. cbn. now apply IH.
Qed.

Lemma all_null_fewer n (l : list (option exception)) :
  forallb is_null (firstn (S n) l) = true ->
  forallb is_null (firstn n l) = true.
Proof.
  revert l. induction n as [|n IH]; intros [|x l]; cbn; auto.
  intros [-> H]%andb_true_iff. cbn. now apply IH.
Qed.

Lemma served_fewer n w : served (S n) w = true -> served n w = true.
Proof. apply all_null_fewer. Qed.

Lemma served_or_raises n w :
  served n w = true ->
  (exists e, raises_at n w e) \/ served (S n) w = true.
Proof.
  intros H. destruct (all_null_cases _ _ H) as [[e He]|Hs].
  - left. exists e. now split.
  - now right.
Qed.

Lemma served_not_raises n w e :
  served (S n) w = true -> ~ raises_at n w e.
Proof.
  intros Hs [_ Hn]. apply skipn_at in Hn.
  exact (all_null_next _ _ Hs _ _ Hn).
Qed.

Lemma after_0 w : after 0 w (store w) = w.
Proof. now destruct w. Qed.

Lemma execute_after_served {A} (query : Store -> A * Store) n w s :
  served (S n) w = true ->
  execute query (after n w s)
  = (Returned (fst (query s)), after (S n) w (snd (query s))).
Proof.
  intros H. unfold execute, after. cbn [script store settings].
  rewrite tl_skipn.
  pose proof (all_null_next _ _ H) as Hnext.
  destruct (skipn n (script w)) as [|[e|] rest] eqn:E;
    try (now destruct (query s)).
  now destruct (Hnext e rest).
Qed.

Lemma execute_after_raises {A} (query : Store -> A * Store) n w s e :
  raises_at n w e ->
  execute query (after n w s) = (Raised e, after (S n) w s).
Proof.
  intros [_ H]. unfold execute, after. cbn [script store settings].
  now rewrite (skipn_at _ _ _ H).
Qed.

Lemma bind_ret {A B} (a : A) (k : A -> M B) w : bind (ret a) k w = k a w.
Proof. reflexivity. Qed.

Lemma bind_raise {A B} (e : exception) (k : A -> M B) w :
  bind (raise e) k w = (Raised e, w).
Proof. reflexivity. Qed.

Lemma served_0 w : served 0 w = true.
Proof. reflexivity. Qed.

(** Takes the goal through the next store call, served or raising. *)
Ltac call_served H :=
  rewrite (bind_returned _ _ _ _ _ (execute_after_served _ _ _ _ H));
  cbn [fst snd select_unclaimed_tokens select_device_owner upsert_device
       update_claimed delete_tokens_of insert_token].

Ltac call_raises H :=
  rewrite (bind_raised _ _ _ _ _ (execute_after_raises _ _ _ _ _ H)).

Lemma served_nth_null m w n e :
  served m w = true -> (n < m)%nat ->
  nth_error (script w) n <> Some (Some e).
Proof.
  unfold served. generalize (script w) as l. revert n.
  induction m as [|m IH]; intros n l Hs Hlt; [lia|].
  destruct l as [|x l]; [now destruct n|].
  cbn in Hs. apply andb_true_iff in Hs as [Hx Hs].
  destruct n as [|n]; cbn.
  - destruct x; [discriminate|congruence].
  - apply IH; [exact Hs|lia].
Qed.

(** Brings together what the hypotheses say about two runs from the same
    state: rows found, instants parsed, exceptions raised. *)
Ltac same :=
  repeat match goal with
    | H : usable _ _ _ _ _ |- _ => destruct H
    | H : raises_at _ _ _ |- _ => destruct H
    | H1 : ?a = ?b, H2 : ?a = ?c |- _ =>
        tryif constr_eq b c then fail
        else (rewrite H1 in H2;
              first [discriminate H2 | injection H2 as ?; subst])
    end.

Ltac clash :=
  same;
  solve
    [ discriminate
    | lia
    | match goal with
      | Hs : served ?m ?w = true,
        Hn : nth_error (script ?w) ?n = Some (Some ?e) |- _ =>
          exfalso; apply (served_nth_null m w n e Hs); [lia|exact Hn]
      end ].

(** ** Every call follows exactly one run *)

Section ClaimRuns.

Variable fromisoformat : string -> exception + datetime.
Variable isoformat : Z -> string.

Lemma claim_device_run u t clk w :
  client_available (settings w) = true ->
  exists r s n,
    claim_run fromisoformat isoformat u t clk w r s n
    /\ claim_device fromisoformat isoformat u t clk w
       = (Returned r, after n w s).
Proof.
  intros Hc. unfold claim_device.
  rewrite (bind_returned _ _ _ _ _ (client_available_ok _ Hc)).
  unfold try_except.
  match goal with |- context [bind ?m ?k w] =>
    replace (bind m k w) with (bind m k (after 0 w (store w)))
      by now rewrite after_0
  end.
  destruct (served_or_raises 0 w (served_0 w)) as [[e He]|H1].
  { call_raises He. exists (failed_to_claim e), (store w), 1%nat.
    split; [now constructor|reflexivity]. }
  call_served H1.
  destruct (List.filter _ _) as [|row rows] eqn:Hrows.
  { exists invalid_or_expired, (store w), 1%nat. split; [|reflexivity].
    apply run_not_found; [exact H1|]. unfold looked_up. now rewrite Hrows. }
  assert (Hrow : looked_up t (store w) = Some row)
    by (unfold looked_up; now rewrite Hrows).
  destruct (parse_expires_at fromisoformat (TokenRow.expires_at row))
    as [e|[x|x]] eqn:Hp; cbn [lift now_after].
  { rewrite bind_raise. exists (failed_to_claim e), (store w), 1%nat.
    split; [|reflexivity]. eapply run_unparsable; eauto. }
  2:{ rewrite bind_ret. cbn [lift now_after]. rewrite bind_raise.
      exists (failed_to_claim naive_comparison), (store w), 1%nat.
      split; [|reflexivity]. eapply run_naive; eauto. }
  rewrite bind_ret. cbn [lift now_after]. rewrite bind_ret.
  destruct (x <? at_check clk) eqn:Hx.
  { exists has_expired, (store w), 1%nat. split; [|reflexivity].
    eapply run_expired; eauto. now apply Z.ltb_lt. }
  assert (Hu : usable fromisoformat t clk w row)
    by (econstructor; eauto; now apply Z.ltb_ge).
  destruct (served_or_raises 1 w H1) as [[e He]|H2].
  { call_raises He. exists (failed_to_claim e), (store w), 2%nat.
    split; [|reflexivity]. eapply run_owner_raises; eauto. }
  call_served H2.
  match goal with |- context [if ?b then ret already_claimed else _] =>
    replace b with (owned_by_other u (TokenRow.device_id row) (store w))
      by (unfold owned_by_other; now destruct (devices _ !! _))
  end.
  destruct (owned_by_other u (TokenRow.device_id row) (store w)) eqn:Hob.
  { exists already_claimed, (store w), 2%nat. split; [|reflexivity].
    eapply run_conflict; eauto. }
  unfold bind_and_mark.
  destruct (served_or_raises 2 w H2) as [[e He]|H3].
  { call_raises He. exists (failed_to_claim e), (store w), 3%nat.
    split; [|reflexivity]. eapply run_upsert_raises; eauto. }
  call_served H3.
  destruct (served_or_raises 3 w H3) as [[e He]|H4].
  { call_raises He.
    exists (failed_to_claim e), (bound u (TokenRow.device_id row) (store w)),
      4%nat.
    split; [|reflexivity]. eapply run_mark_raises; eauto. }
  call_served H4.
  exists (claimed_successfully (TokenRow.device_id row)),
    (marked t u (isoformat (at_mark clk))
       (bound u (TokenRow.device_id row) (store w))), 4%nat.
  split; [|reflexivity]. eapply run_success; eauto.
Qed.

Lemma claim_run_functional u t clk w r s n r' s' n' :
  claim_run fromisoformat isoformat u t clk w r s n ->
  claim_run fromisoformat isoformat u t clk w r' s' n' ->
  r = r' /\ s = s' /\ n = n'.
Proof.
  intros H H'. destruct H; destruct H'; try clash; same; auto.
Qed.

Lemma claim_run_sound u t clk w r s n :
  client_available (settings w) = true ->
  claim_run fromisoformat isoformat u t clk w r s n ->
  claim_device fromisoformat isoformat u t clk w = (Returned r, after n w s).
Proof.
  intros Hc H.
  destruct (claim_device_run u t clk w Hc) as (r' & s' & n' & H' & ->).
  now destruct (claim_run_functional _ _ _ _ _ _ _ _ _ _ H H') as (-> & -> & ->).
Qed.

End ClaimRuns.

(** ** What the token query finds *)

Lemma looked_up_Some t s row :
  looked_up t s = Some row ->
  In row (device_pairing_tokens s)
  /\ TokenRow.token row = t /\ TokenRow.claimed_by row = None.
Proof.
  unfold looked_up. intros H.
  assert (Hin : In row (List.filter (unclaimed_with_token t) (device_pairing_tokens s)))
    by (destruct (List.filter _ _); [discriminate|injection H as ->; now left]).
  apply List.filter_In in Hin as [Hin Hp]. unfold unclaimed_with_token in Hp.
  apply andb_true_iff in Hp as [Ht Hn]. apply String.eqb_eq in Ht.
  destruct (TokenRow.claimed_by row); [discriminate|]. auto.
Qed.

Lemma looked_up_None t s :
  looked_up t s = None <->
  forall row, In row (device_pairing_tokens s) ->
              TokenRow.token row = t -> TokenRow.claimed_by row <> None.
Proof.
  unfold looked_up. split.
  - intros H row Hin Ht Hn.
    assert (Hf : In row (List.filter (unclaimed_with_token t) (device_pairing_tokens s))).
    { apply List.filter_In. split; [exact Hin|]. unfold unclaimed_with_token.
      rewrite Hn. cbn. rewrite andb_true_r. now apply String.eqb_eq. }
    destruct (List.filter _ _); [contradiction|discriminate].
  - intros H. destruct (List.filter _ _) as [|row rows] eqn:E; [reflexivity|].
    assert (Hf : In row (List.filter (unclaimed_with_token t) (device_pairing_tokens s)))
      by (rewrite E; now left).
    apply List.filter_In in Hf as [Hin Hp]. unfold unclaimed_with_token in Hp.
    apply andb_true_iff in Hp as [Ht Hn]. apply String.eqb_eq in Ht.
    destruct (TokenRow.claimed_by row) eqn:Hc; [discriminate|].
    now destruct (H row Hin Ht).
Qed.

Lemma claim_device_unconfigured fromisoformat isoformat u t clk w :
  client_available (settings w) = false ->
  exists e, claim_device fromisoformat isoformat u t clk w = (Raised e, w).
Proof.
  intros Hc. unfold claim_device, bind, get_supabase_admin_client.
  unfold client_available in Hc.
  destruct (Py.truthy _); cbn in *; [|eauto].
  rewrite Hc. cbn. eauto.
Qed.

(** ** The claim processor and the issuer *)

Section ClaimResults.

Variable fromisoformat : string -> exception + datetime.
Variable isoformat : Z -> string.

(** C7. A token row found unclaimed by the lookup whose [expires_at] lies
    strictly before the reading of the clock is rejected with "Pairing token
    has expired"; the tables are left as they were, so the row is still
    there and still unclaimed. *)
Theorem expired_token_is_rejected u t clk w row x :
  client_available (settings w) = true ->
  served 1 w = true ->
  looked_up t (store w) = Some row ->
  parse_expires_at fromisoformat (TokenRow.expires_at row) = inr (Aware x) ->
  x < at_check clk ->
  exists w',
    claim_device fromisoformat isoformat u t clk w
    = (Returned (ClaimResult.mk false None "Pairing token has expired"), w')
    /\ store w' = store w
    /\ In row (device_pairing_tokens (store w'))
    /\ TokenRow.claimed_by row = None.
Proof.
  intros Hc Hs Hrow Hp Hx.
  exists (after 1 w (store w)).
  rewrite (claim_run_sound _ _ _ _ _ _ _ _ _ Hc
             (run_expired _ _ _ _ _ _ _ _ Hs Hrow Hp Hx)).
  destruct (looked_up_Some _ _ _ Hrow) as (Hin & _ & Hn).
  repeat split; assumption.
Qed.


(** C4. With the client at hand and the two reads served, the checks are
    decided in the order lookup, expiry, ownership: a failed lookup gives
    the invalid-token message; a row found but expired gives the expiry
    message whoever owns the device; a row found and unexpired for a device
    of another user gives the ownership message. Each of the three
    rejections leaves both tables as they were, and so does every call, in
    any state, that returns one of them. *)
Theorem rejections_in_order_without_writes u t clk w :
  client_available (settings w) = true ->
  served 2 w = true ->
  (looked_up t (store w) = None ->
   claim_device fromisoformat isoformat u t clk w
   = (Returned (ClaimResult.mk false None "Invalid or expired pairing token"),
      after 1 w (store w)))
  /\ (forall row x,
        looked_up t (store w) = Some row ->
        parse_expires_at fromisoformat (TokenRow.expires_at row) = inr (Aware x) ->
        x < at_check clk ->
        claim_device fromisoformat isoformat u t clk w
        = (Returned (ClaimResult.mk false None "Pairing token has expired"),
           after 1 w (store w)))
  /\ (forall row x,
        looked_up t (store w) = Some row ->
        parse_expires_at fromisoformat (TokenRow.expires_at row) = inr (Aware x) ->
        at_check clk <= x ->
        owned_by_other u (TokenRow.device_id row) (store w) = true ->
        claim_device fromisoformat isoformat u t clk w
        = (Returned
             (ClaimResult.mk false None "Device is already claimed by another user"),
           after 2 w (store w)))
  /\ (forall w0 r w',
        claim_device fromisoformat isoformat u t clk w0 = (Returned r, w') ->
        r = invalid_or_expired \/ r = has_expired \/ r = already_claimed ->
        store w' = store w0).
Proof.
  intros Hc H2. pose proof (served_fewer _ _ H2) as H1.
  repeat split.
  - intros Hnone.
    apply (claim_run_sound _ _ _ _ _ _ _ _ _ Hc). now constructor.
  - intros row x Hrow Hp Hx.
    apply (claim_run_sound _ _ _ _ _ _ _ _ _ Hc). eapply run_expired; eauto.
  - intros row x Hrow Hp Hx Hob.
    apply (claim_run_sound _ _ _ _ _ _ _ _ _ Hc).
    eapply run_conflict; eauto. econstructor; eauto.
  - intros w0 r w' Hrun Hr.
    destruct (client_available (settings w0)) eqn:Hc0.
    + destruct (claim_device_run fromisoformat isoformat u t clk w0 Hc0)
        as (r' & s & n & Hpath & Heq).
      rewrite Heq in Hrun. injection Hrun as <- <-.
      destruct Hpath; try reflexivity;
        destruct Hr as [Hr|[Hr|Hr]]; discriminate Hr.
    + destruct (claim_device_unconfigured fromisoformat isoformat u t clk w0 Hc0)
        as [e He].
      rewrite He in Hrun. discriminate.
Qed.

(** C8. A state with no row carrying the token and a state where rows
    carry it but all are claimed give the caller the same result, under the
    same settings and the same behaviour of the store; when the call is
    served that result is the invalid-token rejection. *)
Theorem unknown_and_claimed_tokens_look_alike u t clk w1 w2 :
  settings w1 = settings w2 ->
  script w1 = script w2 ->
  (forall row, In row (device_pairing_tokens (store w1)) ->
               TokenRow.token row <> t) ->
  (exists row, In row (device_pairing_tokens (store w2))
               /\ TokenRow.token row = t) ->
  (forall row, In row (device_pairing_tokens (store w2)) ->
               TokenRow.token row = t -> TokenRow.claimed_by row <> None) ->
  fst (claim_device fromisoformat isoformat u t clk w1)
  = fst (claim_device fromisoformat isoformat u t clk w2)
  /\ (client_available (settings w1) = true -> served 1 w1 = true ->
      fst (claim_device fromisoformat isoformat u t clk w1)
      = Returned (ClaimResult.mk false None "Invalid or expired pairing token")).
Proof.
  intros Hset Hsc Habsent _ Hclaimed.
  assert (Hn1 : looked_up t (store w1) = None)
    by (apply looked_up_None; intros row Hin Ht; now destruct (Habsent row Hin)).
  assert (Hn2 : looked_up t (store w2) = None) by now apply looked_up_None.
  destruct (client_available (settings w1)) eqn:Hc1.
  - assert (Hc2 : client_available (settings w2) = true) by now rewrite <- Hset.
    destruct (served_or_raises 0 w1 (served_0 w1)) as [[e He]|H1].
    + assert (He2 : raises_at 0 w2 e)
        by (destruct He as [? He]; split; [reflexivity|now rewrite <- Hsc]).
      rewrite (claim_run_sound _ _ _ _ _ _ _ _ _ Hc1
                 (run_lookup_raises _ _ _ _ _ _ _ He)).
      rewrite (claim_run_sound _ _ _ _ _ _ _ _ _ Hc2
                 (run_lookup_raises _ _ _ _ _ _ _ He2)).
      split; [reflexivity|]. intros _ H1.
      now destruct (served_not_raises _ _ _ H1 He).
    + assert (H1' : served 1 w2 = true) by (unfold served; now rewrite <- Hsc).
      rewrite (claim_run_sound _ _ _ _ _ _ _ _ _ Hc1
                 (run_not_found _ _ _ _ _ _ H1 Hn1)).
      rewrite (claim_run_sound _ _ _ _ _ _ _ _ _ Hc2
                 (run_not_found _ _ _ _ _ _ H1' Hn2)).
      split; [reflexivity|]. reflexivity.
  - split; [|discriminate].
    unfold claim_device, bind, get_supabase_admin_client.
    rewrite <- Hset. unfold client_available in Hc1.
    destruct (Py.truthy _); cbn in *; [|reflexivity].
    rewrite Hc1. reflexivity.
Qed.

(** C6. When the lookup finds an unclaimed row that has not expired, and
    the device of that row has no record or belongs to the caller, and the
    four store calls are served, the call returns success with the device
    id and "Device claimed successfully"; the devices table then holds,
    under the device id of the token, a record owned by the caller and named
    "Tronbyt-" followed by the first four characters of the id; and every
    row carrying the token is marked claimed by the caller at the reading
    of the clock. *)
Theorem successful_claim_binds_and_marks u t clk w row x :
  client_available (settings w) = true ->
  served 4 w = true ->
  looked_up t (store w) = Some row ->
  parse_expires_at fromisoformat (TokenRow.expires_at row) = inr (Aware x) ->
  at_check clk <= x ->
  (devices (store w) !! TokenRow.device_id row = None
   \/ exists dev, devices (store w) !! TokenRow.device_id row = Some dev
                  /\ DeviceRow.user_id dev = Some u) ->
  let d := TokenRow.device_id row in
  exists w',
    claim_device fromisoformat isoformat u t clk w
    = (Returned (ClaimResult.mk true (Some d) "Device claimed successfully"), w')
    /\ (exists dev', devices (store w') !! d = Some dev'
                     /\ DeviceRow.user_id dev' = Some u
                     /\ DeviceRow.name dev' = "Tronbyt-" ++ Py.prefix 4 d)
    /\ (forall d', d' <> d -> devices (store w') !! d' = devices (store w) !! d')
    /\ device_pairing_tokens (store w')
       = map (fun r =>
                if String.eqb (TokenRow.token r) t
                then TokenRow.mk (TokenRow.device_id r) (TokenRow.token r)
                       (TokenRow.expires_at r) (Some u)
                       (Some (isoformat (at_mark clk)))
                else r)
           (device_pairing_tokens (store w))
    /\ In (TokenRow.mk d t (TokenRow.expires_at row) (Some u)
             (Some (isoformat (at_mark clk))))
         (device_pairing_tokens (store w')).
Proof.
  intros Hc H4 Hrow Hp Hx Hfree d.
  assert (H1 : served 1 w = true) by now do 3 apply served_fewer.
  assert (Hu : usable fromisoformat t clk w row) by (econstructor; eauto).
  assert (Hob : owned_by_other u d (store w) = false).
  { unfold owned_by_other, d. destruct Hfree as [->|(dev & -> & ->)]; [reflexivity|].
    cbn. now rewrite String.eqb_refl. }
  eexists. split.
  { eapply claim_run_sound; [exact Hc|]. now apply run_success. }
  cbn [after store marked bound update_claimed upsert_device snd devices
       device_pairing_tokens].
  destruct (looked_up_Some _ _ _ Hrow) as (Hin & Ht & Hn).
  repeat split.
  - eexists. split; [apply lookup_insert_eq|].
    unfold upsert_row. now destruct (devices (store w) !! _).
  - intros d' Hd'. now apply lookup_insert_ne.
  - apply in_map_iff. exists row. split; [|exact Hin].
    unfold mark_row. rewrite <- Ht, String.eqb_refl. reflexivity.
Qed.

(** C9. Once the client is at hand, [claim_device] returns a result in
    every state and whatever the store does: it never raises. A result
    that is not a success is one of the three rejections or the generic
    failure. Whenever one of the store calls it makes raises, the result is
    [success = false] with the message "Failed to claim device: " followed
    by the text of the exception; the class of the exception does not show
    in it. *)
Theorem claim_device_reports_failures_as_values u t clk w :
  client_available (settings w) = true ->
  exists r s n,
    claim_device fromisoformat isoformat u t clk w = (Returned r, after n w s)
    /\ (ClaimResult.success r = false ->
        r = ClaimResult.mk false None "Invalid or expired pairing token"
        \/ r = ClaimResult.mk false None "Pairing token has expired"
        \/ r = ClaimResult.mk false None "Device is already claimed by another user"
        \/ exists e,
             r = ClaimResult.mk false None ("Failed to claim device: " ++ str e))
    /\ (forall k e,
          (k < n)%nat -> nth_error (script w) k = Some (Some e) ->
          r = ClaimResult.mk false None ("Failed to claim device: " ++ str e))
    /\ (forall class_name class_name' text,
          failed_to_claim (Error class_name text)
          = ClaimResult.mk false None ("Failed to claim device: " ++ text)
          /\ failed_to_claim (Error class_name text)
             = failed_to_claim (Error class_name' text)).
Proof.
  intros Hc.
  destruct (claim_device_run fromisoformat isoformat u t clk w Hc)
    as (r & s & n & Hpath & Heq).
  exists r, s, n. split; [exact Heq|]. split; [|split].
  - intros Hfail. destruct Hpath; eauto 6; discriminate Hfail.
  - intros k e Hk Hnth.
    assert (Hraise : forall m e', raises_at m w e' -> n = S m ->
                                  r = failed_to_claim e' ->
                                  r = failed_to_claim e).
    { intros m e' [Hs Hm] -> ->.
      destruct (Nat.eq_dec k m) as [->|Hne]; [congruence|].
      exfalso. apply (served_nth_null m w k e Hs); [lia|exact Hnth]. }
    assert (Hserved : served n w = true -> False)
      by (intros Hs; now apply (served_nth_null n w k e Hs)).
    destruct Hpath;
      try (eapply Hraise; eauto; fail);
      exfalso; apply Hserved; auto;
      repeat match goal with H : usable _ _ _ _ _ |- _ => destruct H end;
      auto.
  - intros. split; reflexivity.
Qed.

(** What [generate_pairing_token] does to the state, outcome by outcome. *)
Lemma generate_pairing_token_run d tok now w :
  let row := TokenRow.mk d tok (isoformat (now + minutes PAIRING_TOKEN_VALIDITY_MINUTES))
               None None in
  let cleared := snd (delete_tokens_of d (store w)) in
  let g := generate_pairing_token isoformat d tok now w in
  (validate_device_id d = false /\ exists e, g = (Raised e, w))
  \/ (client_available (settings w) = false /\ exists e, g = (Raised e, w))
  \/ (validate_device_id d = true /\ client_available (settings w) = true
      /\ ((exists e e', raises_at 0 w e /\ g = (Raised e', after 1 w (store w)))
          \/ (exists e e', raises_at 1 w e /\ g = (Raised e', after 2 w cleared))
          \/ (served 2 w = true
              /\ g = (Returned (PairingToken.mk d tok
                                  (now + minutes PAIRING_TOKEN_VALIDITY_MINUTES)),
                      after 2 w (snd (insert_token row cleared)))))).
Proof.
  intros row cleared g. subst g. unfold generate_pairing_token.
  destruct (validate_device_id d) eqn:Hv; cbn [negb].
  2:{ left. split; [reflexivity|]. eexists. reflexivity. }
  right.
  destruct (client_available (settings w)) eqn:Hc.
  2:{ left. split; [reflexivity|].
      unfold bind, get_supabase_admin_client. unfold client_available in Hc.
      destruct (Py.truthy _); cbn in *; [|eauto]. rewrite Hc. cbn. eauto. }
  right. split; [reflexivity|]. split; [reflexivity|].
  rewrite (bind_returned _ _ _ _ _ (client_available_ok _ Hc)).
  unfold try_except.
  match goal with |- context [bind ?m ?k w] =>
    replace (bind m k w) with (bind m k (after 0 w (store w)))
      by now rewrite after_0
  end.
  destruct (served_or_raises 0 w (served_0 w)) as [[e He]|H1].
  { left. call_raises He. exists e. destruct e; eexists; split; eauto. }
  call_served H1.
  destruct (served_or_raises 1 w H1) as [[e He]|H2].
  { right. left. call_raises He. exists e. destruct e; eexists; split; eauto. }
  right. right. call_served H2. split; [exact H2|reflexivity].
Qed.

Lemma generate_pairing_token_keeps_devices d tok now w out w' :
  generate_pairing_token isoformat d tok now w = (out, w') ->
  devices (store w') = devices (store w).
Proof.
  intros H.
  destruct (generate_pairing_token_run d tok now w)
    as [[_ [e He]]|[[_ [e He]]|(_ & _ & [(e & e' & _ & He)|[(e & e' & _ & He)|[_ He]]])]];
    rewrite He in H; injection H as <- <-; reflexivity.
Qed.

(** An existing device keeps its owner through any call of
    [claim_device]. *)
Lemma claim_device_keeps_owner u t clk w out w' d dev :
  claim_device fromisoformat isoformat u t clk w = (out, w') ->
  devices (store w) !! d = Some dev ->
  exists dev', devices (store w') !! d = Some dev'
               /\ DeviceRow.user_id dev' = DeviceRow.user_id dev.
Proof.
  intros Hrun Hdev.
  destruct (client_available (settings w)) eqn:Hc.
  2:{ destruct (claim_device_unconfigured fromisoformat isoformat u t clk w Hc)
        as [e He].
      rewrite He in Hrun. injection Hrun as <- <-. eauto. }
  destruct (claim_device_run fromisoformat isoformat u t clk w Hc)
    as (r & s & n & Hpath & Heq).
  rewrite Heq in Hrun. injection Hrun as <- <-. cbn [after store].
  assert (Hbound : forall row,
             owned_by_other u (TokenRow.device_id row) (store w) = false ->
             exists dev', devices (bound u (TokenRow.device_id row) (store w)) !! d
                          = Some dev'
                          /\ DeviceRow.user_id dev' = DeviceRow.user_id dev).
  { intros row Hob. cbn [bound upsert_device snd devices].
    destruct (decide (TokenRow.device_id row = d)) as [Hd|Hd].
    - rewrite Hd in *. rewrite lookup_insert_eq. eexists. split; [reflexivity|].
      unfold owned_by_other in Hob. rewrite Hdev in *. cbn [upsert_row DeviceRow.user_id].
      destruct (DeviceRow.user_id dev) as [a|]; [|discriminate].
      cbn in Hob. apply negb_false_iff, String.eqb_eq in Hob. now subst.
    - rewrite lookup_insert_ne by exact Hd. eauto. }
  destruct Hpath; cbn [marked update_claimed snd devices]; eauto.
Qed.

Lemma owned_by_other_owner A B d dev s :
  devices s !! d = Some dev ->
  DeviceRow.user_id dev = Some A ->
  owned_by_other B d s = negb (String.eqb A B).
Proof. intros Hd Hu. unfold owned_by_other. now rewrite Hd, Hu. Qed.

(** C1 (as amended). Let device [d] belong to user [A] and let [B] be
    another user. A claim by [B] with a token that is otherwise valid (found
    unclaimed, not expired) and stands for [d] is rejected with "Device is
    already claimed by another user". A claim by [B] with any token whose
    rows stand for [d], valid or not, and whatever the store does, returns
    [success = false] and writes nothing. And no call of [claim_device] or
    [generate_pairing_token], by anyone, in any state, changes the owner of
    a device that has a record. *)
Theorem foreign_claim_is_rejected_and_owner_kept w d dev A B :
  client_available (settings w) = true ->
  devices (store w) !! d = Some dev ->
  DeviceRow.user_id dev = Some A ->
  A <> B ->
  (forall t clk row x,
     served 2 w = true ->
     looked_up t (store w) = Some row ->
     TokenRow.device_id row = d ->
     parse_expires_at fromisoformat (TokenRow.expires_at row) = inr (Aware x) ->
     at_check clk <= x ->
     claim_device fromisoformat isoformat B t clk w
     = (Returned
          (ClaimResult.mk false None "Device is already claimed by another user"),
        after 2 w (store w)))
  /\ (forall t clk,
        (forall row, In row (device_pairing_tokens (store w)) ->
                     TokenRow.token row = t -> TokenRow.device_id row = d) ->
        exists r w',
          claim_device fromisoformat isoformat B t clk w = (Returned r, w')
          /\ ClaimResult.success r = false
          /\ store w' = store w)
  /\ (forall w0 u t clk out w' d0 dev0,
        claim_device fromisoformat isoformat u t clk w0 = (out, w') ->
        devices (store w0) !! d0 = Some dev0 ->
        exists dev', devices (store w') !! d0 = Some dev'
                     /\ DeviceRow.user_id dev' = DeviceRow.user_id dev0)
  /\ (forall w0 d0 tok now out w',
        generate_pairing_token isoformat d0 tok now w0 = (out, w') ->
        devices (store w') = devices (store w0)).
Proof.
  intros Hc Hdev Hown Hne.
  assert (Hother : owned_by_other B d (store w) = true).
  { rewrite (owned_by_other_owner A B d dev _ Hdev Hown).
    apply negb_true_iff, String.eqb_neq, Hne. }
  repeat split.
  - intros t clk row x H2 Hrow Hd Hp Hx.
    eapply claim_run_sound; [exact Hc|].
    apply run_conflict with (row := row); [|exact H2|now rewrite Hd].
    econstructor; eauto. now apply served_fewer.
  - intros t clk Hfor.
    destruct (claim_device_run fromisoformat isoformat B t clk w Hc)
      as (r & s & n & Hpath & Heq).
    exists r, (after n w s). split; [exact Heq|].
    assert (Hrow : forall row, usable fromisoformat t clk w row ->
                     owned_by_other B (TokenRow.device_id row) (store w) = false ->
                     False).
    { intros row [x _ Hl _ _] Hob.
      destruct (looked_up_Some _ _ _ Hl) as (Hin & Ht & _).
      rewrite (Hfor row Hin Ht) in Hob. congruence. }
    destruct Hpath; try (split; reflexivity);
      exfalso; eapply Hrow; eauto.
  - intros w0 u t clk out w' d0 dev0. apply claim_device_keeps_owner.
  - intros w0 d0 tok now out w'. apply generate_pairing_token_keeps_devices.
Qed.

Lemma reclaim_devices u t clk w row x dev :
  client_available (settings w) = true ->
  served 4 w = true ->
  looked_up t (store w) = Some row ->
  parse_expires_at fromisoformat (TokenRow.expires_at row) = inr (Aware x) ->
  at_check clk <= x ->
  devices (store w) !! TokenRow.device_id row = Some dev ->
  DeviceRow.user_id dev = Some u ->
  let d := TokenRow.device_id row in
  exists w',
    claim_device fromisoformat isoformat u t clk w
    = (Returned (claimed_successfully d), w')
    /\ settings w' = settings w
    /\ script w' = skipn 4 (script w)
    /\ devices (store w')
       = <[d := DeviceRow.mk (Some u) (default_name d) (DeviceRow.api_key dev)]>
           (devices (store w)).
Proof.
  intros Hc H4 Hrow Hp Hx Hdev Hown d.
  assert (H1 : served 1 w = true) by now do 3 apply served_fewer.
  assert (Hu : usable fromisoformat t clk w row) by (econstructor; eauto).
  assert (Hob : owned_by_other u d (store w) = false).
  { unfold d. rewrite (owned_by_other_owner u u _ dev _ Hdev Hown).
    now rewrite String.eqb_refl. }
  eexists. split.
  { eapply claim_run_sound; [exact Hc|]. now apply run_success. }
  cbn [after store settings script marked bound update_claimed upsert_device
       snd devices].
  repeat split. unfold d. now rewrite Hdev.
Qed.

(** C3 (as amended). A user who owns a device and claims it again with a
    fresh valid token gets success. The record of the device keeps its
    owner and its API key, and every other device is untouched, but the
    name is set to the default "Tronbyt-" plus the first four characters of
    the id: the record is unchanged exactly when it already had that name.
    From then on a further re-claim changes nothing in the devices table. *)
Theorem reclaim_by_owner_keeps_all_but_name u t clk w row x dev :
  client_available (settings w) = true ->
  served 4 w = true ->
  looked_up t (store w) = Some row ->
  parse_expires_at fromisoformat (TokenRow.expires_at row) = inr (Aware x) ->
  at_check clk <= x ->
  devices (store w) !! TokenRow.device_id row = Some dev ->
  DeviceRow.user_id dev = Some u ->
  let d := TokenRow.device_id row in
  exists w',
    claim_device fromisoformat isoformat u t clk w
    = (Returned (ClaimResult.mk true (Some d) "Device claimed successfully"), w')
    /\ (exists dev',
          devices (store w') !! d = Some dev'
          /\ DeviceRow.user_id dev' = DeviceRow.user_id dev
          /\ DeviceRow.api_key dev' = DeviceRow.api_key dev
          /\ DeviceRow.name dev' = "Tronbyt-" ++ Py.prefix 4 d)
    /\ (forall d', d' <> d -> devices (store w') !! d' = devices (store w) !! d')
    /\ (DeviceRow.name dev = "Tronbyt-" ++ Py.prefix 4 d <->
        devices (store w') = devices (store w))
    /\ (forall t2 clk2 row2 x2,
          served 4 w' = true ->
          looked_up t2 (store w') = Some row2 ->
          TokenRow.device_id row2 = d ->
          parse_expires_at fromisoformat (TokenRow.expires_at row2)
          = inr (Aware x2) ->
          at_check clk2 <= x2 ->
          exists w'',
            claim_device fromisoformat isoformat u t2 clk2 w'
            = (Returned (ClaimResult.mk true (Some d) "Device claimed successfully"),
               w'')
            /\ devices (store w'') = devices (store w')).
Proof.
  intros Hc H4 Hrow Hp Hx Hdev Hown d.
  destruct (reclaim_devices u t clk w row x dev Hc H4 Hrow Hp Hx Hdev Hown)
    as (w' & Heq & Hset & _ & Hdevs).
  fold d in Hdevs, Heq, Hdev.
  exists w'. split; [exact Heq|]. split; [|split; [|split]].
  - eexists. split; [rewrite Hdevs; apply lookup_insert_eq|]. cbn. auto.
  - intros d' Hd'. rewrite Hdevs. now apply lookup_insert_ne.
  - split.
    + intros Hname. rewrite Hdevs. apply insert_id. rewrite Hdev. f_equal.
      destruct dev as [o n k].
      cbn [DeviceRow.user_id DeviceRow.name DeviceRow.api_key] in *.
      subst o n. reflexivity.
    + intros Hsame. rewrite Hsame in Hdevs.
      assert (Hl : devices (store w) !! d
                   = Some (DeviceRow.mk (Some u) (default_name d) (DeviceRow.api_key dev)))
        by (rewrite Hdevs at 1; apply lookup_insert_eq).
      rewrite Hdev in Hl. injection Hl as ->. reflexivity.
  - intros t2 clk2 row2 x2 H4' Hrow2 Hd2 Hp2 Hx2.
    assert (Hc' : client_available (settings w') = true) by now rewrite Hset.
    assert (Hdev' : devices (store w') !! TokenRow.device_id row2
                    = Some (DeviceRow.mk (Some u) (default_name d)
                              (DeviceRow.api_key dev)))
      by (rewrite Hd2, Hdevs; apply lookup_insert_eq).
    destruct (reclaim_devices u t2 clk2 w' row2 x2 _ Hc' H4' Hrow2 Hp2 Hx2
                Hdev' eq_refl) as (w'' & Heq2 & _ & _ & Hdevs2).
    rewrite Hd2 in Heq2, Hdevs2.
    exists w''. split; [exact Heq2|].
    rewrite Hdevs2. apply insert_id. cbn. rewrite Hdevs. apply lookup_insert_eq.
Qed.

Lemma filter_none {A} (p : A -> bool) (l : list A) :
  List.filter p (List.filter (fun a => negb (p a)) l) = [].
Proof.
  induction l as [|a l IH]; [reflexivity|]. cbn.
  destruct (p a) eqn:E; cbn; [exact IH|]. now rewrite E.
Qed.

(** C5. After a successful [generate_pairing_token d], the token table is
    the old one without the rows of [d], followed by the new row; so exactly
    one row stands for [d], the new one. A token issued for [d] before
    (different from the new draw, and carried by rows of [d] only) is then
    refused: a claim with it, once served, returns "Invalid or expired
    pairing token" and writes nothing. *)
Theorem one_pending_token_per_device d tok now w p w' :
  generate_pairing_token isoformat d tok now w = (Returned p, w') ->
  let row := TokenRow.mk d tok
               (isoformat (now + minutes PAIRING_TOKEN_VALIDITY_MINUTES))
               None None in
  device_pairing_tokens (store w')
  = (List.filter (fun r => negb (String.eqb (TokenRow.device_id r) d))
       (device_pairing_tokens (store w)) ++ [row])%list
  /\ List.filter (fun r => String.eqb (TokenRow.device_id r) d)
       (device_pairing_tokens (store w')) = [row]
  /\ (forall old,
        In old (device_pairing_tokens (store w)) ->
        TokenRow.device_id old = d ->
        TokenRow.token old <> tok ->
        (forall r, In r (device_pairing_tokens (store w)) ->
                   TokenRow.token r = TokenRow.token old ->
                   TokenRow.device_id r = d) ->
        forall u clk,
          served 1 w' = true ->
          claim_device fromisoformat isoformat u (TokenRow.token old) clk w'
          = (Returned (ClaimResult.mk false None "Invalid or expired pairing token"),
             after 1 w' (store w'))).
Proof.
  intros Hgen row.
  destruct (generate_pairing_token_run d tok now w)
    as [[_ [e He]]|[[_ [e He]]|(_ & Hc & [(e & e' & _ & He)|[(e & e' & _ & He)|[_ He]]])]];
    rewrite He in Hgen; try discriminate Hgen.
  injection Hgen as _ <-.
  cbn [after store insert_token delete_tokens_of snd device_pairing_tokens].
  split; [reflexivity|]. split.
  - rewrite List.filter_app, filter_none. cbn. now rewrite String.eqb_refl.
  - intros old Hin Hd Htok Honly u clk H1.
    eapply claim_run_sound; [exact Hc|].
    apply run_not_found; [exact H1|].
    apply looked_up_None. cbn [after store device_pairing_tokens].
    intros r Hr Ht. exfalso.
    apply in_app_or in Hr as [Hr|[<-|[]]].
    + apply List.filter_In in Hr as [Hr Hnd].
      apply negb_true_iff, String.eqb_neq in Hnd. apply Hnd. now apply Honly.
    + cbn in Ht. congruence.
Qed.

(** ** Claims in flight and claims in turn *)

Lemma advance_raises a n w s e :
  in_progress (at_phase a) = true ->
  raises_at n w e ->
  advance fromisoformat isoformat a (after n w s)
  = (moved a (Finished (failed_to_claim e)), after (S n) w s).
Proof.
  intros Hp He. unfold advance, try_except, next_phase.
  destruct (at_phase a); try discriminate Hp; now call_raises He.
Qed.

Lemma advance_lookup a n w s :
  at_phase a = Lookup ->
  served (S n) w = true ->
  advance fromisoformat isoformat a (after n w s)
  = (moved a
       match looked_up (pairing_token a) s with
       | None => Finished invalid_or_expired
       | Some row =>
           match parse_expires_at fromisoformat (TokenRow.expires_at row) with
           | inl e => Finished (failed_to_claim e)
           | inr (Naive _) => Finished (failed_to_claim naive_comparison)
           | inr (Aware x) =>
               if x <? at_check (clock a) then Finished has_expired
               else OwnerCheck (TokenRow.device_id row)
           end
       end,
     after (S n) w s).
Proof.
  intros Hp Hs. unfold advance, try_except, next_phase. rewrite Hp.
  call_served Hs. unfold looked_up.
  destruct (List.filter _ _) as [|row rows]; [reflexivity|]. cbn [head].
  destruct (parse_expires_at _ _) as [e|[x|x]]; cbn [lift now_after];
    rewrite ?bind_raise, ?bind_ret; cbn [lift now_after];
    rewrite ?bind_raise, ?bind_ret; try reflexivity.
  now destruct (x <? at_check (clock a)).
Qed.

Lemma advance_owner_check a d n w s :
  at_phase a = OwnerCheck d ->
  served (S n) w = true ->
  advance fromisoformat isoformat a (after n w s)
  = (moved a (if owned_by_other (user_id a) d s
              then Finished already_claimed else Binding d),
     after (S n) w s).
Proof.
  intros Hp Hs. unfold advance, try_except, next_phase. rewrite Hp.
  call_served Hs. unfold owned_by_other.
  destruct (devices s !! d) as [dev|]; [|reflexivity].
  now destruct (negb _).
Qed.

Lemma advance_binding a d n w s :
  at_phase a = Binding d ->
  served (S n) w = true ->
  advance fromisoformat isoformat a (after n w s)
  = (moved a (Marking d), after (S n) w (bound (user_id a) d s)).
Proof.
  intros Hp Hs. unfold advance, try_except, next_phase. rewrite Hp.
  now call_served Hs.
Qed.

Lemma advance_marking a d n w s :
  at_phase a = Marking d ->
  served (S n) w = true ->
  advance fromisoformat isoformat a (after n w s)
  = (moved a (Finished (claimed_successfully d)),
     after (S n) w
       (marked (pairing_token a) (user_id a) (isoformat (at_mark (clock a))) s)).
Proof.
  intros Hp Hs. unfold advance, try_except, next_phase. rewrite Hp.
  now call_served Hs.
Qed.

(** One attempt moved four times on its own is the call: same result, same
    state left behind. *)
Lemma run_alone_follows_call u t clk w :
  client_available (settings w) = true ->
  exists r w',
    claim_device fromisoformat isoformat u t clk w = (Returned r, w')
    /\ run fromisoformat isoformat [0; 0; 0; 0]%nat [begin u t clk] w
       = ([moved (begin u t clk) (Finished r)], w').
Proof.
  intros Hc.
  destruct (claim_device_run fromisoformat isoformat u t clk w Hc)
    as (r & s & n & Hpath & Heq).
  exists r, (after n w s). split; [exact Heq|]. clear Heq.
  rewrite <- (after_0 w) at 1.
  assert (Hdone : forall r' w' sched,
             run fromisoformat isoformat sched
               [moved (begin u t clk) (Finished r')] w'
             = ([moved (begin u t clk) (Finished r')], w')).
  { intros r' w' sched. induction sched as [|[|i] sched IH]; cbn; auto. }
  destruct Hpath as [e He| H1 Hl | row e H1 Hl Hp | row x H1 Hl Hp
                    | row x H1 Hl Hp Hx | row e Hu He | row Hu H2 Hob
                    | row e Hu Hob He | row e Hu Hob He | row Hu Hob H4];
    try (destruct Hu as [x H1 Hl Hp Hx]; apply Z.ltb_ge in Hx);
    try (apply Z.ltb_lt in Hx);
    try (pose proof He as [Hbefore _]);
    repeat match goal with
      | H : served (S ?n) ?w = true |- _ =>
          lazymatch goal with
          | _ : served n w = true |- _ => fail
          | _ => pose proof (served_fewer _ _ H)
          end
      end;
    repeat
      (cbn [run lookup list_lookup insert list_insert];
       first
         [ apply Hdone
         | erewrite advance_raises; [|reflexivity|exact He]
         | erewrite advance_lookup; [|reflexivity|eassumption];
           cbn [pairing_token begin clock moved]; rewrite Hl, ?Hp, ?Hx
         | erewrite advance_owner_check; [|reflexivity|eassumption];
           cbn [user_id begin moved]; rewrite Hob
         | erewrite advance_binding; [|reflexivity|eassumption]
         | erewrite advance_marking; [|reflexivity|eassumption]
         | reflexivity ]).
Qed.

(** Two attempts with the same usable token for a device without a record,
    their store calls alternating and all served: both finish with
    success, whoever the callers are. *)
Lemma claims_in_flight_both_succeed uA uB t clkA clkB w row x :
  served 8 w = true ->
  looked_up t (store w) = Some row ->
  parse_expires_at fromisoformat (TokenRow.expires_at row) = inr (Aware x) ->
  at_check clkA <= x ->
  at_check clkB <= x ->
  devices (store w) !! TokenRow.device_id row = None ->
  let d := TokenRow.device_id row in
  run fromisoformat isoformat [0; 1; 0; 1; 0; 1; 0; 1]%nat
    [begin uA t clkA; begin uB t clkB] w
  = ([moved (begin uA t clkA) (Finished (claimed_successfully d));
      moved (begin uB t clkB) (Finished (claimed_successfully d))],
     after 8 w
       (marked t uB (isoformat (at_mark clkB))
          (marked t uA (isoformat (at_mark clkA))
             (bound uB d (bound uA d (store w)))))).
Proof.
  intros H8 Hl Hp HxA HxB Hnone d.
  apply Z.ltb_ge in HxA, HxB.
  assert (Hfree : forall u, owned_by_other u d (store w) = false)
    by (intros u; unfold owned_by_other, d; now rewrite Hnone).
  repeat match goal with
    | H : served (S ?n) ?w = true |- _ =>
        lazymatch goal with
        | _ : served n w = true |- _ => fail
        | _ => pose proof (served_fewer _ _ H)
        end
    end.
  rewrite <- (after_0 w) at 1.
  repeat
    (cbn [run lookup list_lookup insert list_insert];
     first
       [ erewrite advance_lookup; [|reflexivity|eassumption];
         cbn [pairing_token begin clock moved]; rewrite Hl, Hp, ?HxA, ?HxB
       | erewrite advance_owner_check; [|reflexivity|eassumption];
         cbn [user_id begin moved]; rewrite Hfree
       | erewrite advance_binding; [|reflexivity|eassumption]
       | erewrite advance_marking; [|reflexivity|eassumption] ]).
  reflexivity.
Qed.

Lemma marked_hides_token t u stamp s :
  looked_up t (marked t u stamp s) = None.
Proof.
  apply looked_up_None. cbn [marked update_claimed snd device_pairing_tokens].
  intros row' (row & <- & _)%in_map_iff. unfold mark_row.
  destruct (String.eqb (TokenRow.token row) t) eqn:E; cbn.
  - discriminate.
  - intros Ht. apply String.eqb_neq in E. contradiction.
Qed.

Lemma quiet_after n w s :
  script w = [] -> after n w s = {| settings := settings w; store := s; script := [] |}.
Proof. intros H. unfold after. rewrite H. now destruct n. Qed.

(** In a store that serves every call, claims made in turn with a token
    that no unclaimed row carries are all refused as invalid. *)
Lemma claims_in_turn_refused requests t w :
  client_available (settings w) = true ->
  script w = [] ->
  looked_up t (store w) = None ->
  claim_in_turn fromisoformat isoformat requests t w
  = (map (fun _ => Returned invalid_or_expired) requests, w).
Proof.
  intros Hc Hq Hn. induction requests as [|[u clk] rest IH]; [reflexivity|].
  cbn [claim_in_turn map].
  assert (H1 : served 1 w = true) by (unfold served; now rewrite Hq).
  rewrite (claim_run_sound _ _ _ _ _ _ _ _ _ Hc
             (run_not_found _ _ _ _ _ _ H1 Hn)).
  assert (Hw : after 1 w (store w) = w)
    by (rewrite quiet_after by exact Hq; destruct w; cbn in *; now subst).
  rewrite Hw, IH. reflexivity.
Qed.

(** Claims made in turn: once one of them has won, every later one with
    the same token gets the invalid-token rejection. *)
Lemma one_winner_in_turn u t clk w r w' rest :
  client_available (settings w) = true ->
  script w = [] ->
  claim_device fromisoformat isoformat u t clk w = (Returned r, w') ->
  ClaimResult.success r = true ->
  claim_in_turn fromisoformat isoformat ((u, clk) :: rest) t w
  = (Returned r :: map (fun _ => Returned invalid_or_expired) rest, w').
Proof.
  intros Hc Hq Hrun Hwon. cbn [claim_in_turn]. rewrite Hrun.
  destruct (claim_device_run fromisoformat isoformat u t clk w Hc)
    as (r' & s & n & Hpath & Heq).
  rewrite Heq in Hrun. injection Hrun as <- <-.
  destruct Hpath; try discriminate Hwon.
  rewrite quiet_after by exact Hq.
  rewrite claims_in_turn_refused; [reflexivity|exact Hc|reflexivity|].
  apply marked_hides_token.
Qed.

End ClaimResults.

(** ** The validator on concrete text *)

(** C2. [validate_device_id] accepts texts of length 8 that are not eight
    hexadecimal digits: [int(s, 16)] reads a sign, surrounding white space,
    the [0x] prefix and single underscores between digits. *)
Theorem validate_device_id_accepts_more_than_hex :
  validate_device_id "-1234567" = true
  /\ validate_device_id " 1234567" = true
  /\ validate_device_id "1234_567" = true
  /\ validate_device_id "0x123456" = true
  /\ validate_device_id "+1234567" = true
  /\ eight_hex_characters "-1234567" = false
  /\ eight_hex_characters " 1234567" = false
  /\ eight_hex_characters "1234_567" = false
  /\ eight_hex_characters "0x123456" = false
  /\ eight_hex_characters "+1234567" = false.
Proof. repeat split; vm_compute; reflexivity. Qed.

(** The cases of the test suite. *)
Example validate_device_id_tests :
  map validate_device_id
    ["12345678"; "ABCDEF12"; "abcdef12"; "a1b2c3d4";
     "1234567"; "123456789"; "";
     "1234567g"; "1234567Z"; "12-45678"; "12 45678"]
  = [true; true; true; true; false; false; false; false; false; false; false].
Proof. vm_compute. reflexivity. Qed.

(** ** Claims on concrete rows *)

(** C1, as stated, fails: the device belongs to alice, bob claims it with
    a token of the device that has run out, and the rejection he gets is the
    expiry message, not the ownership message. *)
Lemma foreign_claim_with_stale_token_is_not_a_conflict :
  devices (store Sample.taken) !! "a1b2c3d4"
  = Some (DeviceRow.mk (Some "alice") "Kitchen" (Some "k3y"))
  /\ looked_up "tok-0" (store Sample.taken) = Some Sample.stale_row
  /\ TokenRow.device_id Sample.stale_row = "a1b2c3d4"
  /\ exists r w',
       Sample.claim "bob" "tok-0" (Sample.at_ Sample.noon) Sample.taken
       = (Returned r, w')
       /\ ClaimResult.message r = "Pairing token has expired"
       /\ ClaimResult.message r <> "Device is already claimed by another user".
Proof.
  repeat split; try (vm_compute; reflexivity).
  eexists _, _. split; [vm_compute; reflexivity|].
  split; [reflexivity|discriminate].
Qed.

(** C3, as stated, fails: alice owns the device and has named it
    "Kitchen"; she claims it again with a fresh valid token, the claim
    succeeds, and the name of the device is no longer the one it had. *)
Lemma reclaim_overwrites_the_name :
  exists r w' dev dev',
    Sample.claim "alice" "tok-1" (Sample.at_ Sample.noon) Sample.taken
    = (Returned r, w')
    /\ ClaimResult.success r = true
    /\ devices (store Sample.taken) !! "a1b2c3d4" = Some dev
    /\ DeviceRow.user_id dev = Some "alice"
    /\ devices (store w') !! "a1b2c3d4" = Some dev'
    /\ DeviceRow.name dev = "Kitchen"
    /\ DeviceRow.name dev' = "Tronbyt-a1b2"
    /\ DeviceRow.name dev' <> DeviceRow.name dev.
Proof.
  eexists _, _, _, _.
  split; [vm_compute; reflexivity|].
  repeat split; try (vm_compute; reflexivity).
  discriminate.
Qed.

(** C6, as stated, fails: the device has a record with no owner, the
    token for it is found unclaimed and has not expired, the store serves
    every call, and the claim is refused with the ownership message: line
    173 compares the null [user_id] of the record with the caller's id and
    finds them different. Nothing is written. *)
Lemma claim_of_ownerless_record_is_refused :
  looked_up "tok-1" (store Sample.registered) = Some Sample.fresh_row
  /\ TokenRow.claimed_by Sample.fresh_row = None
  /\ IsoUtc.fromisoformat (TokenRow.expires_at Sample.fresh_row)
     = inr (Aware (Sample.noon + minutes 30))
  /\ Sample.noon <= Sample.noon + minutes 30
  /\ devices (store Sample.registered) !! TokenRow.device_id Sample.fresh_row
     = Some Sample.ownerless
  /\ DeviceRow.user_id Sample.ownerless = None
  /\ script Sample.registered = []
  /\ Sample.claim "alice" "tok-1" (Sample.at_ Sample.noon) Sample.registered
     = (Returned (ClaimResult.mk false None
                    "Device is already claimed by another user"),
        after 2 Sample.registered (store Sample.registered)).
Proof.
  repeat split; try (vm_compute; reflexivity).
  vm_compute. discriminate.
Qed.

(** C10. Two requests with the same valid, unclaimed token, in flight at
    once with their store calls alternating: both checks pass before
    either write lands, both attempts return success, and the device ends
    up with the one who wrote last. *)
Theorem two_claims_in_flight_both_succeed :
  looked_up "tok-1" (store Sample.waiting) = Some Sample.fresh_row
  /\ TokenRow.claimed_by Sample.fresh_row = None
  /\ IsoUtc.fromisoformat (TokenRow.expires_at Sample.fresh_row)
     = inr (Aware (Sample.noon + minutes 30))
  /\ exists finished w',
       run IsoUtc.fromisoformat IsoUtc.isoformat Sample.alternating
         Sample.racers Sample.waiting = (finished, w')
       /\ map result_of finished
          = [Some (ClaimResult.mk true (Some "a1b2c3d4") "Device claimed successfully");
             Some (ClaimResult.mk true (Some "a1b2c3d4") "Device claimed successfully")]
       /\ devices (store w') !! "a1b2c3d4"
          = Some (DeviceRow.mk (Some "bob") "Tronbyt-a1b2" None).
Proof.
  repeat split; try (vm_compute; reflexivity).
  eexists _, _. split; [vm_compute; reflexivity|].
  split; vm_compute; reflexivity.
Qed.

(** The same two requests served in turn: the first wins, the second is
    refused. *)
Example two_claims_in_turn :
  fst (claim_in_turn IsoUtc.fromisoformat IsoUtc.isoformat
         [("alice", Sample.at_ Sample.noon); ("bob", Sample.at_ (Sample.noon + 5))]
         "tok-1" Sample.waiting)
  = [Returned (claimed_successfully "a1b2c3d4"); Returned invalid_or_expired].
Proof. vm_compute. reflexivity. Qed.

(** ** The general results at the sample rows *)

Lemma expired_token_is_rejected_witness :
  looked_up "tok-0" (store Sample.lapsed) = Some Sample.stale_row
  /\ Sample.noon - minutes 5 < at_check (Sample.at_ Sample.noon)
  /\ exists w',
       Sample.claim "bob" "tok-0" (Sample.at_ Sample.noon) Sample.lapsed
       = (Returned (ClaimResult.mk false None "Pairing token has expired"), w')
       /\ store w' = store Sample.lapsed
       /\ In Sample.stale_row (device_pairing_tokens (store w'))
       /\ TokenRow.claimed_by Sample.stale_row = None.
Proof.
  split; [reflexivity|]. split; [reflexivity|].
  apply (expired_token_is_rejected IsoUtc.fromisoformat IsoUtc.isoformat
           "bob" "tok-0" (Sample.at_ Sample.noon) Sample.lapsed
           Sample.stale_row (Sample.noon - minutes 5));
    reflexivity.
Defined.

Lemma rejections_in_order_without_writes_witness :
  Sample.claim "bob" "tok-9" (Sample.at_ Sample.noon) Sample.taken
  = (Returned invalid_or_expired, after 1 Sample.taken (store Sample.taken))
  /\ Sample.claim "bob" "tok-0" (Sample.at_ Sample.noon) Sample.taken
     = (Returned has_expired, after 1 Sample.taken (store Sample.taken))
  /\ Sample.claim "bob" "tok-1" (Sample.at_ Sample.noon) Sample.taken
     = (Returned already_claimed, after 2 Sample.taken (store Sample.taken)).
Proof.
  split; [|split].
  - apply (rejections_in_order_without_writes IsoUtc.fromisoformat
             IsoUtc.isoformat "bob" "tok-9" (Sample.at_ Sample.noon)
             Sample.taken eq_refl eq_refl).
    reflexivity.
  - apply (proj1 (proj2
             (rejections_in_order_without_writes IsoUtc.fromisoformat
                IsoUtc.isoformat "bob" "tok-0" (Sample.at_ Sample.noon)
                Sample.taken eq_refl eq_refl))
             Sample.stale_row (Sample.noon - minutes 5));
      reflexivity.
  - apply (proj1 (proj2 (proj2
             (rejections_in_order_without_writes IsoUtc.fromisoformat
                IsoUtc.isoformat "bob" "tok-1" (Sample.at_ Sample.noon)
                Sample.taken eq_refl eq_refl)))
             Sample.fresh_row (Sample.noon + minutes 30));
      try reflexivity.
    vm_compute. discriminate.
Defined.

Lemma unknown_and_claimed_tokens_look_alike_witness :
  fst (Sample.claim "bob" "tok-1" (Sample.at_ Sample.noon) Sample.nothing_out)
  = fst (Sample.claim "bob" "tok-1" (Sample.at_ Sample.noon) Sample.all_used)
  /\ fst (Sample.claim "bob" "tok-1" (Sample.at_ Sample.noon) Sample.nothing_out)
     = Returned (ClaimResult.mk false None "Invalid or expired pairing token").
Proof.
  assert (H := unknown_and_claimed_tokens_look_alike IsoUtc.fromisoformat
                 IsoUtc.isoformat "bob" "tok-1" (Sample.at_ Sample.noon)
                 Sample.nothing_out Sample.all_used eq_refl eq_refl).
  destruct H as [Hsame Hmsg].
  - intros row [].
  - exists Sample.used_row. split; [now left|reflexivity].
  - intros row [<-|[]] _. discriminate.
  - split; [exact Hsame|]. apply Hmsg; reflexivity.
Defined.

Lemma successful_claim_binds_and_marks_witness :
  looked_up "tok-1" (store Sample.waiting) = Some Sample.fresh_row
  /\ devices (store Sample.waiting) !! "a1b2c3d4" = None
  /\ exists w',
       Sample.claim "alice" "tok-1" (Sample.at_ Sample.noon) Sample.waiting
       = (Returned (ClaimResult.mk true (Some "a1b2c3d4")
                      "Device claimed successfully"), w')
       /\ devices (store w') !! "a1b2c3d4"
          = Some (DeviceRow.mk (Some "alice") "Tronbyt-a1b2" None)
       /\ device_pairing_tokens (store w')
          = [TokenRow.mk "a1b2c3d4" "tok-1" "2024-05-01T13:00:00+00:00"
               (Some "alice") (Some "2024-05-01T12:30:00.001000+00:00")].
Proof.
  split; [reflexivity|]. split; [reflexivity|].
  destruct (successful_claim_binds_and_marks IsoUtc.fromisoformat
              IsoUtc.isoformat "alice" "tok-1" (Sample.at_ Sample.noon)
              Sample.waiting Sample.fresh_row (Sample.noon + minutes 30))
    as (w' & Hrun & _ & _ & Htokens & _);
    try reflexivity.
  - vm_compute. discriminate.
  - left. reflexivity.
  - exists w'. split; [exact Hrun|].
    assert (Hw : w' = snd (Sample.claim "alice" "tok-1" (Sample.at_ Sample.noon)
                             Sample.waiting))
      by (unfold Sample.claim; now rewrite Hrun).
    rewrite Hw. split; vm_compute; reflexivity.
Defined.

Lemma claim_device_reports_failures_as_values_witness :
  exists r s n,
    Sample.claim "bob" "tok-1" (Sample.at_ Sample.noon) Sample.unreachable
    = (Returned r, after n Sample.unreachable s)
    /\ r = ClaimResult.mk false None "Failed to claim device: connection reset".
Proof.
  destruct (claim_device_reports_failures_as_values IsoUtc.fromisoformat
              IsoUtc.isoformat "bob" "tok-1" (Sample.at_ Sample.noon)
              Sample.unreachable eq_refl)
    as (r & s & n & Hrun & _ & Hfail & _).
  exists r, s, n. split; [exact Hrun|].
  assert (Heval :
            claim_device IsoUtc.fromisoformat IsoUtc.isoformat "bob" "tok-1"
              (Sample.at_ Sample.noon) Sample.unreachable
            = (Returned (ClaimResult.mk false None
                           "Failed to claim device: connection reset"),
               with_script Sample.unreachable []))
    by (vm_compute; reflexivity).
  rewrite Heval in Hrun. now injection Hrun as <- _.
Defined.

Lemma foreign_claim_is_rejected_and_owner_kept_witness :
  devices (store Sample.taken) !! "a1b2c3d4" = Some (Sample.owned "alice" "Kitchen")
  /\ "alice" <> "bob"
  /\ Sample.claim "bob" "tok-1" (Sample.at_ Sample.noon) Sample.taken
     = (Returned
          (ClaimResult.mk false None "Device is already claimed by another user"),
        after 2 Sample.taken (store Sample.taken))
  /\ exists r w',
       Sample.claim "bob" "tok-0" (Sample.at_ Sample.noon) Sample.taken
       = (Returned r, w')
       /\ ClaimResult.success r = false
       /\ store w' = store Sample.taken.
Proof.
  assert (Hne : "alice" <> "bob") by discriminate.
  destruct (foreign_claim_is_rejected_and_owner_kept IsoUtc.fromisoformat
              IsoUtc.isoformat Sample.taken "a1b2c3d4"
              (Sample.owned "alice" "Kitchen") "alice" "bob"
              eq_refl eq_refl eq_refl Hne)
    as (Hconflict & Hfails & _ & _).
  split; [reflexivity|]. split; [exact Hne|]. split.
  - apply (Hconflict "tok-1" (Sample.at_ Sample.noon) Sample.fresh_row
             (Sample.noon + minutes 30));
      try reflexivity.
    vm_compute. discriminate.
  - apply Hfails. intros row [<-|[<-|[]]] _; reflexivity.
Defined.

Lemma reclaim_by_owner_keeps_all_but_name_witness :
  devices (store Sample.taken) !! "a1b2c3d4" = Some (Sample.owned "alice" "Kitchen")
  /\ exists w',
       Sample.claim "alice" "tok-1" (Sample.at_ Sample.noon) Sample.taken
       = (Returned (ClaimResult.mk true (Some "a1b2c3d4")
                      "Device claimed successfully"), w')
       /\ exists dev',
            devices (store w') !! "a1b2c3d4" = Some dev'
            /\ DeviceRow.user_id dev' = Some "alice"
            /\ DeviceRow.api_key dev' = Some "k3y"
            /\ DeviceRow.name dev' = "Tronbyt-a1b2".
Proof.
  split; [reflexivity|].
  destruct (reclaim_by_owner_keeps_all_but_name IsoUtc.fromisoformat
              IsoUtc.isoformat "alice" "tok-1" (Sample.at_ Sample.noon)
              Sample.taken Sample.fresh_row (Sample.noon + minutes 30)
              (Sample.owned "alice" "Kitchen"))
    as (w' & Hrun & Hdev & _);
    try reflexivity.
  - vm_compute. discriminate.
  - exists w'. split; [exact Hrun|exact Hdev].
Defined.

Lemma one_pending_token_per_device_witness :
  Sample.generate "a1b2c3d4" "tok-2" Sample.noon Sample.waiting
  = (Returned (PairingToken.mk "a1b2c3d4" "tok-2" (Sample.noon + minutes 30)),
     Sample.reissued)
  /\ device_pairing_tokens (store Sample.reissued)
     = [Sample.pending "a1b2c3d4" "tok-2" (Sample.noon + minutes 30)]
  /\ Sample.claim "alice" "tok-1" (Sample.at_ Sample.noon) Sample.reissued
     = (Returned (ClaimResult.mk false None "Invalid or expired pairing token"),
        after 1 Sample.reissued (store Sample.reissued)).
Proof.
  assert (Hgen : generate_pairing_token IsoUtc.isoformat "a1b2c3d4" "tok-2"
                   Sample.noon Sample.waiting
                 = (Returned (PairingToken.mk "a1b2c3d4" "tok-2"
                                (Sample.noon + minutes 30)),
                    Sample.reissued))
    by (vm_compute; reflexivity).
  destruct (one_pending_token_per_device IsoUtc.fromisoformat IsoUtc.isoformat
              "a1b2c3d4" "tok-2" Sample.noon Sample.waiting _ _ Hgen)
    as (Htable & _ & Hold).
  split; [exact Hgen|]. split; [exact Htable|].
  apply (Hold Sample.fresh_row).
  - now left.
  - reflexivity.
  - discriminate.
  - intros r [<-|[]] _. reflexivity.
  - reflexivity.
Defined.

(** ** The half of the validator's contract that holds *)

Lemma hex_char_facts c :
  is_hex_char c = true ->
  (Py.ord c <? 128) = true
  /\ Py.Py_ISSPACE c = false
  /\ (Py.PyLong_DigitValue c <? 16) = true
  /\ Ascii.eqb c "_" = false
  /\ Ascii.eqb c "x" = false
  /\ Ascii.eqb c "X" = false
  /\ Py.take_sign (String c EmptyString) = (1, String c EmptyString).
Proof.
  destruct c as [[] [] [] [] [] [] [] []]; vm_compute; intros H;
    try discriminate H; repeat split.
Qed.

Lemma take_sign_tail c r :
  Py.take_sign (String c r)
  = (fst (Py.take_sign (String c EmptyString)),
     match snd (Py.take_sign (String c EmptyString)) with
     | EmptyString => r
     | String c' _ => String c' r
     end).
Proof. destruct c as [[] [] [] [] [] [] [] []]; reflexivity. Qed.

Lemma skip_base_prefix_hex c1 c2 r :
  Ascii.eqb c2 "x" = false -> Ascii.eqb c2 "X" = false ->
  Py.skip_base_prefix 16 (String c1 (String c2 r)) = String c1 (String c2 r).
Proof.
  intros Hx HX. unfold Py.skip_base_prefix.
  destruct c1 as [[] [] [] [] [] [] [] []]; try reflexivity.
  rewrite Hx, HX. reflexivity.
Qed.

Lemma PyLong_FromString_hex c1 c2 r v :
  is_hex_char c1 = true ->
  Ascii.eqb c2 "x" = false -> Ascii.eqb c2 "X" = false ->
  Py.scan_digits 16 (String c1 (String c2 r)) false 0 = Some (v, EmptyString) ->
  Py.PyLong_FromString (String c1 (String c2 r)) 16 = Some (v, EmptyString).
Proof.
  intros H1 Hx HX Hscan.
  destruct (hex_char_facts c1 H1) as (_ & Hsp & _ & Hus & _ & _ & Hsign).
  unfold Py.PyLong_FromString.
  cbn [Py.skip_space]. rewrite Hsp, take_sign_tail, Hsign. cbn [fst snd].
  rewrite (skip_base_prefix_hex _ _ _ Hx HX), Hscan.
  cbn [String.length Nat.eqb Py.skip_space].
  destruct c1 as [[] [] [] [] [] [] [] []]; try discriminate Hus;
    now destruct v.
Qed.

Lemma is_ascii_hex s : all_hex s = true -> Py.is_ascii s = true.
Proof.
  induction s as [|c s IH]; [reflexivity|]. cbn.
  intros [Hc Hs]%andb_true_iff.
  destruct (hex_char_facts c Hc) as (-> & _). cbn. auto.
Qed.

Lemma scan_digits_hex s acc :
  all_hex s = true ->
  exists v, Py.scan_digits 16 s false acc = Some (v, EmptyString).
Proof.
  revert acc. induction s as [|c s IH]; intros acc; [cbn; eauto|]. cbn.
  intros [Hc Hs]%andb_true_iff.
  destruct (hex_char_facts c Hc) as (_ & _ & -> & -> & _). auto.
Qed.

(** Every text of eight hexadecimal digits is accepted, and nothing of
    another length is. *)
Lemma validate_device_id_accepts_hex s :
  eight_hex_characters s = true -> validate_device_id s = true.
Proof.
  unfold eight_hex_characters. intros [Hlen Hhex]%andb_true_iff.
  apply Nat.eqb_eq in Hlen.
  destruct s as [|c1 [|c2 r]]; try discriminate Hlen.
  unfold validate_device_id, Py.len. rewrite Hlen. cbn [Py.truthy negb orb Z.eqb].
  change (Z.of_nat 8 =? 8) with true. cbn [negb].
  unfold Py.int, Py.TransformDecimalAndSpaceToASCII.
  rewrite (is_ascii_hex _ Hhex).
  pose proof Hhex as Hhex'. cbn [all_hex] in Hhex'.
  apply andb_true_iff in Hhex' as [H1 Hrest].
  apply andb_true_iff in Hrest as [H2 _].
  destruct (hex_char_facts c1 H1) as (_ & Hsp & _ & Hus & _ & _ & Hsign).
  destruct (hex_char_facts c2 H2) as (_ & _ & _ & _ & Hx & HX & _).
  destruct (scan_digits_hex _ 0 Hhex) as [v Hscan].
  now rewrite (PyLong_FromString_hex _ _ _ _ H1 Hx HX Hscan).
Qed.

Lemma validate_device_id_length s :
  validate_device_id s = true -> String.length s = 8%nat.
Proof.
  unfold validate_device_id, Py.len.
  destruct (Z.of_nat (String.length s) =? 8) eqn:E.
  - intros _. apply Z.eqb_eq in E. lia.
  - rewrite orb_true_r. discriminate.
Qed.

(** * More results *)

(** ** Non-empty strings *)

Lemma truthy_nonempty s : Py.truthy s = true <-> s <> "".
Proof. destruct s; cbn; split; congruence. Qed.

Section MoreResults.

Variable fromisoformat : string -> exception + datetime.
Variable isoformat : Z -> string.

(** ** The issuer when things go wrong *)

Lemma generate_pairing_token_raises d tok now w k cls txt :
  validate_device_id d = true ->
  client_available (settings w) = true ->
  raises_at k w (Error cls txt) ->
  (k < 2)%nat ->
  generate_pairing_token isoformat d tok now w
  = (Raised (HTTPException 500 "Failed to generate pairing token"),
     after (S k) w
       (if Nat.eqb k 0 then store w else snd (delete_tokens_of d (store w)))).
Proof.
  intros Hv Hc He Hk.
  unfold generate_pairing_token. rewrite Hv. cbn [negb].
  rewrite (bind_returned _ _ _ _ _ (client_available_ok _ Hc)).
  unfold try_except.
  match goal with |- context [bind ?m ?f w] =>
    replace (bind m f w) with (bind m f (after 0 w (store w)))
      by now rewrite after_0
  end.
  destruct k as [|[|k]]; [| |lia].
  - now call_raises He.
  - pose proof He as [Hs _]. call_served Hs. now call_raises He.
Qed.

(** X2. A store call that raises during [generate_pairing_token] reaches
    the caller as HTTP 500 "Failed to generate pairing token": neither the
    class nor the text of the store's error gets out. *)
Theorem issuer_turns_store_errors_into_500 d tok now w k cls txt :
  validate_device_id d = true ->
  client_available (settings w) = true ->
  raises_at k w (Error cls txt) ->
  (k < 2)%nat ->
  fst (generate_pairing_token isoformat d tok now w)
  = Raised (HTTPException 500 "Failed to generate pairing token").
Proof.
  intros Hv Hc He Hk.
  now rewrite (generate_pairing_token_raises d tok now w k cls txt Hv Hc He Hk).
Qed.

(** X3. When the delete is served and the insert raises, the call fails
    and the device is left without any pairing token: its old rows are
    gone and no new one is there. The rows of other devices are all kept. *)
Theorem failed_insert_leaves_device_without_token d tok now w cls txt :
  validate_device_id d = true ->
  client_available (settings w) = true ->
  raises_at 1 w (Error cls txt) ->
  let w' := snd (generate_pairing_token isoformat d tok now w) in
  (forall r, In r (device_pairing_tokens (store w')) -> TokenRow.device_id r <> d)
  /\ (forall r, In r (device_pairing_tokens (store w)) ->
                TokenRow.device_id r <> d ->
                In r (device_pairing_tokens (store w')))
  /\ (forall r t, TokenRow.device_id r = d -> looked_up t (store w') <> Some r).
Proof.
  intros Hv Hc He w'. subst w'.
  rewrite (generate_pairing_token_raises d tok now w 1 cls txt Hv Hc He)
    by lia.
  cbn [snd after store Nat.eqb delete_tokens_of device_pairing_tokens].
  assert (Hgone : forall r,
             In r (List.filter
                     (fun r => negb (String.eqb (TokenRow.device_id r) d))
                     (device_pairing_tokens (store w))) ->
             TokenRow.device_id r <> d).
  { intros r [_ Hr]%List.filter_In.
    now apply negb_true_iff, String.eqb_neq in Hr. }
  split; [exact Hgone|]. split.
  - intros r Hin Hr. apply List.filter_In. split; [exact Hin|].
    now apply negb_true_iff, String.eqb_neq.
  - intros r t Hd Hl. apply looked_up_Some in Hl as (Hin & _).
    cbn [device_pairing_tokens] in Hin. now apply (Hgone r Hin).
Qed.

(** X4. Whatever its outcome, [generate_pairing_token d] leaves the rows
    of every other device as they were and in their order, and does not
    touch the devices table or the settings. *)
Theorem issuer_touches_only_its_device d tok now w :
  let w' := snd (generate_pairing_token isoformat d tok now w) in
  List.filter (fun r => negb (String.eqb (TokenRow.device_id r) d))
    (device_pairing_tokens (store w'))
  = List.filter (fun r => negb (String.eqb (TokenRow.device_id r) d))
      (device_pairing_tokens (store w))
  /\ devices (store w') = devices (store w)
  /\ settings w' = settings w.
Proof.
  intros w'. subst w'.
  assert (Hidem : forall l : list TokenRow.t,
             List.filter (fun r => negb (String.eqb (TokenRow.device_id r) d))
               (List.filter (fun r => negb (String.eqb (TokenRow.device_id r) d)) l)
             = List.filter (fun r => negb (String.eqb (TokenRow.device_id r) d)) l).
  { induction l as [|a l IH]; [reflexivity|]. cbn.
    destruct (negb _) eqn:E; cbn; [rewrite E|]; now rewrite ?IH. }
  destruct (generate_pairing_token_run isoformat d tok now w)
    as [[_ [e He]]|[[_ [e He]]|(_ & _ & [(e & e' & _ & He)|[(e & e' & _ & He)|[_ He]]])]];
    rewrite He;
    cbn [snd after store settings insert_token delete_tokens_of
         device_pairing_tokens devices];
    repeat split; auto.
  rewrite List.filter_app, Hidem. cbn. rewrite String.eqb_refl. cbn.
  apply app_nil_r.
Qed.

(** ** Text *)

Lemma length_append a b :
  String.length (a ++ b) = (String.length a + String.length b)%nat.
Proof. induction a as [|c a IH]; simpl; [reflexivity|now f_equal]. Qed.

Lemma length_prefix n s :
  String.length (Py.prefix n s) = Nat.min n (String.length s).
Proof.
  revert s. induction n as [|n IH]; intros [|c s]; simpl; try reflexivity.
  now f_equal.
Qed.

Lemma prefix_append s t : Py.prefix (String.length s) (s ++ t) = s.
Proof. induction s as [|c s IH]; simpl; [now destruct t|now f_equal]. Qed.

Lemma substring_append_tail s t :
  String.substring (String.length s) (String.length t) (s ++ t) = t.
Proof.
  induction s as [|c s IH]; simpl; [|exact IH].
  induction t as [|c t IH]; simpl; [reflexivity|now f_equal].
Qed.

Lemma endswith_append s t : Py.endswith (s ++ t) t = true.
Proof.
  unfold Py.endswith. rewrite length_append.
  replace (String.length s + String.length t - String.length t)%nat
    with (String.length s) by lia.
  rewrite substring_append_tail, String.eqb_refl, andb_true_r.
  apply Nat.leb_le. lia.
Qed.

(** X5. A trailing "Z" on the stored expiry is read as the offset
    "+00:00": the text handed to [fromisoformat] is the stored one with
    its last character replaced. *)
Theorem zulu_suffix_is_read_as_utc s :
  parse_expires_at fromisoformat (s ++ "Z") = fromisoformat (s ++ "+00:00").
Proof.
  unfold parse_expires_at, Py.drop_last.
  rewrite endswith_append, length_append. cbn [String.length].
  replace (String.length s + 1 - 1)%nat with (String.length s) by lia.
  now rewrite prefix_append.
Qed.

(** ** Issue, then claim *)

Lemma no_row_with_token tok (l : list TokenRow.t) :
  (forall r, In r l -> TokenRow.token r <> tok) ->
  List.filter (unclaimed_with_token tok) l = [].
Proof.
  induction l as [|a l IH]; intros H; [reflexivity|]. cbn.
  unfold unclaimed_with_token at 1.
  assert (Ha : String.eqb (TokenRow.token a) tok = false)
    by (apply String.eqb_neq, H; now left).
  rewrite Ha. cbn. apply IH. intros r Hr. apply H. now right.
Qed.

(** X6. A token just issued for a device claims it. If no row carried the
    drawn token before, the stored expiry reads back as the instant written,
    and the device has no record or belongs to the caller, then a claim with
    the token succeeds at any reading of the clock up to and including 30
    minutes after the issue, binding the device under the name "Tronbyt-"
    plus four characters, and is refused as expired at any later one. *)
Theorem issued_token_claims_the_device d tok now w p w1 u clk :
  generate_pairing_token isoformat d tok now w = (Returned p, w1) ->
  (forall r, In r (device_pairing_tokens (store w)) -> TokenRow.token r <> tok) ->
  parse_expires_at fromisoformat (isoformat (now + minutes 30))
  = inr (Aware (now + minutes 30)) ->
  served 4 w1 = true ->
  owned_by_other u d (store w) = false ->
  (at_check clk <= now + minutes 30 ->
   exists w2 dev,
     claim_device fromisoformat isoformat u (PairingToken.token p) clk w1
     = (Returned (ClaimResult.mk true (Some d) "Device claimed successfully"), w2)
     /\ devices (store w2) !! d = Some dev
     /\ DeviceRow.user_id dev = Some u
     /\ DeviceRow.name dev = "Tronbyt-" ++ Py.prefix 4 d
     /\ String.length (DeviceRow.name dev) = 12%nat)
  /\ (now + minutes 30 < at_check clk ->
      claim_device fromisoformat isoformat u (PairingToken.token p) clk w1
      = (Returned (ClaimResult.mk false None "Pairing token has expired"),
         after 1 w1 (store w1))).
Proof.
  intros Hgen Hfresh Hcodec H4 Hfree.
  destruct (generate_pairing_token_run isoformat d tok now w)
    as [[_ [e He]]|[[_ [e He]]|(Hv & Hc & [(e & e' & _ & He)|[(e & e' & _ & He)|[_ He]]])]];
    rewrite He in Hgen; try discriminate Hgen.
  injection Hgen as <- <-. cbn [PairingToken.token].
  set (row := TokenRow.mk d tok (isoformat (now + minutes PAIRING_TOKEN_VALIDITY_MINUTES))
                None None) in *.
  set (w1 := after 2 w (snd (insert_token row (snd (delete_tokens_of d (store w)))))) in *.
  assert (Hc1 : client_available (settings w1) = true) by exact Hc.
  assert (H1 : served 1 w1 = true) by now do 3 apply served_fewer.
  assert (Hl : looked_up tok (store w1) = Some row).
  { unfold looked_up, w1.
    cbn [after store insert_token delete_tokens_of snd device_pairing_tokens].
    rewrite List.filter_app, no_row_with_token.
    - cbn. unfold unclaimed_with_token. cbn. now rewrite String.eqb_refl.
    - intros r [Hr _]%List.filter_In. now apply Hfresh. }
  assert (Hob : owned_by_other u (TokenRow.device_id row) (store w1) = false)
    by exact Hfree.
  split.
  - intros Hnow.
    assert (Hu : usable fromisoformat tok clk w1 row)
      by (econstructor; eauto).
    pose proof (claim_run_sound _ _ _ _ _ _ _ _ _ Hc1
                  (run_success fromisoformat isoformat u tok clk w1 row
                     Hu Hob H4)) as Hrun.
    eexists _, _. split; [exact Hrun|].
    cbn [after store marked bound update_claimed upsert_device snd devices
         TokenRow.device_id row].
    rewrite lookup_insert_eq.
    split; [reflexivity|].
    assert (Hname : DeviceRow.name
                      (upsert_row u (default_name d)
                         (devices (store w1) !! d)) = default_name d)
      by (unfold upsert_row; now destruct (devices (store w1) !! d)).
    assert (Huser : DeviceRow.user_id
                      (upsert_row u (default_name d)
                         (devices (store w1) !! d)) = Some u)
      by (unfold upsert_row; now destruct (devices (store w1) !! d)).
    split; [exact Huser|]. split; [exact Hname|].
    rewrite Hname. unfold default_name.
    rewrite length_append, length_prefix, (validate_device_id_length d Hv).
    reflexivity.
  - intros Hlate.
    exact (claim_run_sound _ _ _ _ _ _ _ _ _ Hc1
             (run_expired fromisoformat isoformat u tok clk w1 row _
                H1 Hl Hcodec Hlate)).
Qed.

(** ** More on [claim_device] *)

(** X7. A token that has claimed a device is spent. After a successful
    claim, a further claim with the same token, by anyone and at any time,
    finds no row and is refused as invalid, leaving the tables alone. *)
Theorem claimed_token_is_spent u t clk w r w1 u' clk' :
  claim_device fromisoformat isoformat u t clk w = (Returned r, w1) ->
  ClaimResult.success r = true ->
  served 1 w1 = true ->
  claim_device fromisoformat isoformat u' t clk' w1
  = (Returned (ClaimResult.mk false None "Invalid or expired pairing token"),
     after 1 w1 (store w1)).
Proof.
  intros Hrun Hwon H1.
  destruct (client_available (settings w)) eqn:Hc.
  2:{ destruct (claim_device_unconfigured fromisoformat isoformat u t clk w Hc)
        as [e He]. rewrite He in Hrun. discriminate. }
  destruct (claim_device_run fromisoformat isoformat u t clk w Hc)
    as (r' & s & n & Hpath & Heq).
  rewrite Heq in Hrun. injection Hrun as <- <-.
  destruct Hpath; try discriminate Hwon.
  apply claim_run_sound; [exact Hc|].
  apply run_not_found; [exact H1|]. apply marked_hides_token.
Qed.

Lemma Forall2_map_same {A} (R : A -> A -> Prop) (f : A -> A) (l : list A) :
  (forall a, R a (f a)) -> Forall2 R l (map f l).
Proof. intros H. induction l; cbn; constructor; auto. Qed.

Lemma Forall2_same {A} (R : A -> A -> Prop) (l : list A) :
  (forall a, R a a) -> Forall2 R l l.
Proof. intros H. induction l; constructor; auto. Qed.

(** X8. What [claim_device] never does. Whatever the outcome, the token
    table keeps its rows, in order, each with its device, token and expiry;
    a row that does not carry the token of the call is left exactly as it
    was; no device record disappears; and a device other than the one the
    looked-up row stands for keeps its record unchanged. *)
Theorem claim_device_keeps_rows u t clk w :
  let w' := snd (claim_device fromisoformat isoformat u t clk w) in
  Forall2
    (fun r r' =>
       TokenRow.device_id r' = TokenRow.device_id r
       /\ TokenRow.token r' = TokenRow.token r
       /\ TokenRow.expires_at r' = TokenRow.expires_at r
       /\ (TokenRow.token r <> t -> r' = r))
    (device_pairing_tokens (store w)) (device_pairing_tokens (store w'))
  /\ (forall d, devices (store w) !! d <> None ->
                devices (store w') !! d <> None)
  /\ (forall d,
        (forall row, looked_up t (store w) = Some row ->
                     TokenRow.device_id row <> d) ->
        devices (store w') !! d = devices (store w) !! d).
Proof.
  intros w'. subst w'.
  set (R := fun r r' : TokenRow.t =>
              TokenRow.device_id r' = TokenRow.device_id r
              /\ TokenRow.token r' = TokenRow.token r
              /\ TokenRow.expires_at r' = TokenRow.expires_at r
              /\ (TokenRow.token r <> t -> r' = r)).
  assert (Hsame : Forall2 R (device_pairing_tokens (store w))
                    (device_pairing_tokens (store w)))
    by (apply Forall2_same; intros a; unfold R; auto).
  assert (Hmark : forall stamp,
             Forall2 R (device_pairing_tokens (store w))
               (map (mark_row t u stamp) (device_pairing_tokens (store w)))).
  { intros stamp. apply Forall2_map_same. intros a. unfold R, mark_row.
    destruct (String.eqb (TokenRow.token a) t) eqn:E; cbn; auto.
    apply String.eqb_eq in E. repeat split; auto. congruence. }
  assert (Hkeep : forall row d,
             devices (store w) !! d <> None ->
             devices (bound u (TokenRow.device_id row) (store w)) !! d <> None).
  { intros row d Hd. cbn [bound upsert_device snd devices].
    destruct (decide (TokenRow.device_id row = d)) as [<-|Hne].
    - now rewrite lookup_insert_eq.
    - now rewrite lookup_insert_ne. }
  assert (Hother : forall row d,
             looked_up t (store w) = Some row ->
             (forall row, looked_up t (store w) = Some row ->
                          TokenRow.device_id row <> d) ->
             devices (bound u (TokenRow.device_id row) (store w)) !! d
             = devices (store w) !! d).
  { intros row d Hl Hd. cbn [bound upsert_device snd devices].
    apply lookup_insert_ne. now apply Hd. }
  destruct (client_available (settings w)) eqn:Hc.
  2:{ destruct (claim_device_unconfigured fromisoformat isoformat u t clk w Hc)
        as [e ->]. cbn [snd]. auto. }
  destruct (claim_device_run fromisoformat isoformat u t clk w Hc)
    as (r & s & n & Hpath & ->).
  cbn [snd after store].
  destruct Hpath;
    repeat match goal with H : usable _ _ _ _ _ |- _ => destruct H end;
    cbn [marked update_claimed snd devices device_pairing_tokens bound
         upsert_device];
    repeat split; auto;
    try (intros d Hd; apply (Hkeep _ _ Hd));
    try (intros d Hd; eapply Hother; eauto).
Qed.

(** X9. A failure reported after the upsert is no rollback. When the
    update of the token raises, the call returns the generic failure, yet
    the device is bound to the caller and the token row is still unclaimed.
    The caller can simply try again: with the store serving, the same
    token succeeds and changes nothing more in the devices table. *)
Theorem failed_marking_leaves_device_bound u t clk w row x e :
  client_available (settings w) = true ->
  raises_at 3 w e ->
  looked_up t (store w) = Some row ->
  parse_expires_at fromisoformat (TokenRow.expires_at row) = inr (Aware x) ->
  at_check clk <= x ->
  owned_by_other u (TokenRow.device_id row) (store w) = false ->
  let d := TokenRow.device_id row in
  exists w1,
    claim_device fromisoformat isoformat u t clk w
    = (Returned (ClaimResult.mk false None ("Failed to claim device: " ++ str e)),
       w1)
    /\ (exists dev, devices (store w1) !! d = Some dev
                    /\ DeviceRow.user_id dev = Some u)
    /\ device_pairing_tokens (store w1) = device_pairing_tokens (store w)
    /\ (forall clk',
          at_check clk' <= x ->
          served 4 w1 = true ->
          exists w2,
            claim_device fromisoformat isoformat u t clk' w1
            = (Returned (ClaimResult.mk true (Some d) "Device claimed successfully"),
               w2)
            /\ devices (store w2) = devices (store w1)).
Proof.
  intros Hc He Hl Hp Hx Hob d.
  pose proof He as [H3 _].
  assert (H1 : served 1 w = true) by now do 2 apply served_fewer.
  assert (Hu : usable fromisoformat t clk w row) by (econstructor; eauto).
  pose proof (claim_run_sound _ _ _ _ _ _ _ _ _ Hc
                (run_mark_raises fromisoformat isoformat u t clk w row e
                   Hu Hob He)) as Hrun.
  eexists. split; [exact Hrun|].
  set (w1 := after 4 w (bound u (TokenRow.device_id row) (store w))).
  assert (Hdev : devices (store w1) !! d
                 = Some (upsert_row u (default_name d) (devices (store w) !! d)))
    by apply lookup_insert_eq.
  assert (Huser : DeviceRow.user_id
                    (upsert_row u (default_name d) (devices (store w) !! d))
                  = Some u)
    by (unfold upsert_row; now destruct (devices (store w) !! d)).
  split; [eauto|]. split; [reflexivity|].
  intros clk' Hx' H4.
  assert (H1' : served 1 w1 = true) by now do 3 apply served_fewer.
  assert (Hu' : usable fromisoformat t clk' w1 row) by (econstructor; eauto).
  assert (Hob' : owned_by_other u (TokenRow.device_id row) (store w1) = false).
  { unfold owned_by_other. fold d. rewrite Hdev, Huser. cbn.
    now rewrite String.eqb_refl. }
  assert (Hc1 : client_available (settings w1) = true) by exact Hc.
  pose proof (claim_run_sound _ _ _ _ _ _ _ _ _ Hc1
                (run_success fromisoformat isoformat u t clk' w1 row
                   Hu' Hob' H4)) as Hrun'.
  eexists. split; [exact Hrun'|].
  cbn [after store marked bound update_claimed upsert_device snd devices].
  fold d. apply insert_id.
  change (devices (store w1) !! d
          = Some (upsert_row u (default_name d) (devices (store w1) !! d))).
  rewrite Hdev. f_equal. unfold upsert_row.
  now destruct (devices (store w) !! d).
Qed.

(** X10. A row whose expiry does not read as an aware instant blocks its
    token. Every claim that looks such a row up ends in the generic
    failure, whoever asks and whenever, and writes nothing. *)
Theorem unreadable_expiry_blocks_the_token u t clk w row :
  client_available (settings w) = true ->
  served 1 w = true ->
  looked_up t (store w) = Some row ->
  expiry_instant fromisoformat row = None ->
  exists e,
    claim_device fromisoformat isoformat u t clk w
    = (Returned (ClaimResult.mk false None ("Failed to claim device: " ++ str e)),
       after 1 w (store w)).
Proof.
  intros Hc H1 Hl Hnone. unfold expiry_instant in Hnone.
  destruct (parse_expires_at fromisoformat (TokenRow.expires_at row))
    as [e|[x|x]] eqn:Hp; try discriminate Hnone.
  - exists e.
    exact (claim_run_sound _ _ _ _ _ _ _ _ _ Hc
             (run_unparsable fromisoformat isoformat u t clk w row e H1 Hl Hp)).
  - exists naive_comparison.
    exact (claim_run_sound _ _ _ _ _ _ _ _ _ Hc
             (run_naive fromisoformat isoformat u t clk w row x H1 Hl Hp)).
Qed.

(** ** The pairing routes *)

Lemma claim_device_without_client u t clk w :
  client_available (settings w) = false ->
  exists text,
    claim_device fromisoformat isoformat u t clk w
    = (Raised (Error "RuntimeError" text), w).
Proof.
  intros Hc. unfold claim_device, bind, get_supabase_admin_client.
  unfold client_available in Hc.
  destruct (Py.truthy _); cbn in *; [|eauto]. rewrite Hc. cbn. eauto.
Qed.

Lemma claim_route_without_settings found t clk w :
  _check_supabase_config (settings w) = false ->
  exists text,
    claim_device_endpoint fromisoformat isoformat t found clk w
    = (Raised (Error "RuntimeError" text), w).
Proof.
  intros Hoff.
  unfold claim_device_endpoint, get_current_user, bind, get_supabase_client.
  rewrite Hoff. cbn. eauto.
Qed.

(** X11. The pairing routes refuse before they touch the store. The
    claim route raises the [RuntimeError] of the anonymous client when the
    settings for it are missing, and 401 when they are there and no user is
    found; the issuing route raises 400 "Supabase authentication is not
    enabled" when the mode is not "supabase", and 400 for an ill-formed
    device id even when no client can be built. In each case the state,
    the script of the store included, is as before. *)
Theorem routes_refuse_before_the_store found t clk d tok now w :
  (_check_supabase_config (settings w) = false ->
   exists text,
     claim_device_endpoint fromisoformat isoformat t found clk w
     = (Raised (Error "RuntimeError" text), w))
  /\ (_check_supabase_config (settings w) = true ->
      claim_device_endpoint fromisoformat isoformat t None clk w
      = (Raised (HTTPException 401 "Not authenticated"), w))
  /\ (is_supabase_enabled (settings w) = false ->
      generate_pairing_token_endpoint isoformat d tok now w
      = (Raised (HTTPException 400 "Supabase authentication is not enabled"), w))
  /\ (is_supabase_enabled (settings w) = true ->
      validate_device_id d = false ->
      generate_pairing_token_endpoint isoformat d tok now w
      = (Raised (HTTPException 400
                   "Invalid device ID format. Must be 8 hex characters."), w)).
Proof.
  repeat split.
  - apply claim_route_without_settings.
  - intros Hon.
    unfold claim_device_endpoint, get_current_user, bind, get_supabase_client,
      require_user, ret, raise.
    rewrite Hon. reflexivity.
  - intros Hoff.
    unfold generate_pairing_token_endpoint, bind, get_settings.
    cbn. rewrite Hoff. reflexivity.
  - intros Hon Hbad.
    unfold generate_pairing_token_endpoint, bind, get_settings,
      generate_pairing_token.
    cbn. rewrite Hon, Hbad. reflexivity.
Qed.

Lemma check_config_enabled st :
  _check_supabase_config st = true -> is_supabase_enabled st = true.
Proof.
  unfold _check_supabase_config, is_supabase_enabled.
  now destruct (String.eqb (AUTH_MODE st) "supabase").
Qed.

Lemma claim_route_body found t clk w :
  _check_supabase_config (settings w) = true ->
  claim_device_endpoint fromisoformat isoformat t found clk w
  = match found with
    | None => (Raised (HTTPException 401 "Not authenticated"), w)
    | Some u =>
        match claim_device fromisoformat isoformat (SupabaseUser.id u) t clk w with
        | (Returned r, w') =>
            (Returned
               (if ClaimResult.success r then
                  JSONResponse.mk 200
                    [("success", JBool true);
                     ("device_id", json_of_optional (ClaimResult.device_id r));
                     ("message", JString (ClaimResult.message r))]
                else
                  JSONResponse.mk 400
                    [("success", JBool false);
                     ("message", JString (ClaimResult.message r))]),
             w')
        | (Raised e, w') => (Raised e, w')
        end
    end.
Proof.
  intros Hon.
  unfold claim_device_endpoint, get_current_user, get_supabase_client.
  unfold bind at 1. unfold bind at 1. rewrite Hon. cbn [negb ret].
  destruct found as [u|]; [|reflexivity].
  cbn [require_user]. rewrite bind_ret.
  unfold get_settings at 1. unfold bind at 1.
  rewrite (check_config_enabled _ Hon). cbn [negb].
  unfold bind.
  destruct (claim_device fromisoformat isoformat (SupabaseUser.id u) t clk w)
    as [[r|e] w']; [|reflexivity].
  now destruct (ClaimResult.success r).
Qed.

(** X12. The claim route never answers 400 "Supabase authentication is
    not enabled": whenever its dependency [get_current_user] has got past
    building the anonymous client, the mode is "supabase". And with the
    anonymous client to be had but not the admin client (no service-role
    key), a signed-in caller gets no JSON answer: the [RuntimeError] of the
    admin client goes through [claim_device] and the route. *)
Theorem claim_route_lets_client_error_through found t clk w :
  fst (claim_device_endpoint fromisoformat isoformat t found clk w)
  <> Raised (HTTPException 400 "Supabase authentication is not enabled")
  /\ (forall u,
        found = Some u ->
        _check_supabase_config (settings w) = true ->
        client_available (settings w) = false ->
        exists text,
          claim_device_endpoint fromisoformat isoformat t found clk w
          = (Raised (Error "RuntimeError" text), w)).
Proof.
  split.
  - destruct (_check_supabase_config (settings w)) eqn:Hon.
    + rewrite (claim_route_body found t clk w Hon).
      destruct found as [u|]; [|discriminate].
      destruct (client_available (settings w)) eqn:Hc.
      * destruct (claim_device_run fromisoformat isoformat (SupabaseUser.id u)
                    t clk w Hc) as (r & s & n & _ & ->).
        discriminate.
      * destruct (claim_device_without_client (SupabaseUser.id u) t clk w Hc)
          as [text ->].
        discriminate.
    + destruct (claim_route_without_settings found t clk w Hon) as [text ->].
      discriminate.
  - intros u -> Hon Hc.
    rewrite (claim_route_body (Some u) t clk w Hon).
    destruct (claim_device_without_client (SupabaseUser.id u) t clk w Hc)
      as [text ->].
    eauto.
Qed.

(** X13. With the admin client at hand and a user signed in, the claim
    route always answers, with 200 or 400. A 200 names a device, and the
    store then records that device as belonging to the authenticated user;
    every other answer is a 400 that carries [success = false] and the
    message and no device id. *)
Theorem claim_route_answers u t clk w :
  client_available (settings w) = true ->
  exists resp r w',
    claim_device_endpoint fromisoformat isoformat t (Some u) clk w
    = (Returned resp, w')
    /\ claim_device fromisoformat isoformat (SupabaseUser.id u) t clk w
       = (Returned r, w')
    /\ ((JSONResponse.status_code resp = 200
         /\ exists d dev,
              JSONResponse.content resp
              = [("success", JBool true); ("device_id", JString d);
                 ("message", JString "Device claimed successfully")]
              /\ devices (store w') !! d = Some dev
              /\ DeviceRow.user_id dev = Some (SupabaseUser.id u))
        \/ (JSONResponse.status_code resp = 400
            /\ ClaimResult.success r = false
            /\ JSONResponse.content resp
               = [("success", JBool false);
                  ("message", JString (ClaimResult.message r))])).
Proof.
  intros Hc.
  assert (Hon : _check_supabase_config (settings w) = true)
    by (unfold client_available in Hc; now apply andb_true_iff in Hc).
  destruct (claim_device_run fromisoformat isoformat (SupabaseUser.id u) t clk w Hc)
    as (r & s & n & Hpath & Heq).
  rewrite (claim_route_body (Some u) t clk w Hon), Heq.
  destruct Hpath;
    try (eexists _, _, _; split; [reflexivity|]; split; [reflexivity|];
         right; repeat split; reflexivity).
  eexists _, _, _. split; [reflexivity|]. split; [reflexivity|].
  left. split; [reflexivity|].
  eexists _, _. split; [reflexivity|].
  cbn [after store marked bound update_claimed upsert_device snd devices].
  split; [apply lookup_insert_eq|].
  unfold upsert_row. now destruct (devices (store w) !! _).
Qed.

(** X14. What the issuing route tells the firmware is what the store holds.
    A 201 answer carries the device id, the token and the expiry text of the
    row that is now the last of the token table, an unclaimed row for a
    device id the validator accepts. *)
Theorem issuing_route_reports_the_stored_row d tok now w resp w' :
  generate_pairing_token_endpoint isoformat d tok now w = (Returned resp, w') ->
  JSONResponse.status_code resp = 201
  /\ validate_device_id d = true
  /\ exists rows row,
       device_pairing_tokens (store w') = (rows ++ [row])%list
       /\ TokenRow.claimed_by row = None
       /\ TokenRow.device_id row = d
       /\ JSONResponse.content resp
          = [("device_id", JString (TokenRow.device_id row));
             ("token", JString (TokenRow.token row));
             ("expires_at", JString (TokenRow.expires_at row))].
Proof.
  unfold generate_pairing_token_endpoint, get_settings. unfold bind at 1.
  destruct (is_supabase_enabled (settings w)); cbn [negb]; [|discriminate].
  destruct (generate_pairing_token_run isoformat d tok now w)
    as [[_ [e He]]|[[_ [e He]]|(Hv & _ & [(e & e' & _ & He)|[(e & e' & _ & He)|[_ He]]])]];
    unfold bind; rewrite He; try discriminate.
  intros [= <- <-]. split; [reflexivity|]. split; [exact Hv|].
  eexists _, _. cbn [after store insert_token snd device_pairing_tokens].
  split; [reflexivity|]. repeat split.
Qed.

(** ** The listing of devices waiting to be claimed *)

Lemma get_pending_devices_served u now w :
  client_available (settings w) = true ->
  served 1 w = true ->
  get_pending_devices fromisoformat u now w
  = (Returned (map pending_of
                 (List.filter (unclaimed_and_later fromisoformat now)
                    (device_pairing_tokens (store w)))),
     after 1 w (store w)).
Proof.
  intros Hc H1. unfold get_pending_devices.
  rewrite (bind_returned _ _ _ _ _ (client_available_ok _ Hc)).
  unfold try_except.
  match goal with |- context [bind ?m ?f w] =>
    replace (bind m f w) with (bind m f (after 0 w (store w)))
      by now rewrite after_0
  end.
  call_served H1. cbn [select_pending fst snd].
  now destruct (map _ _).
Qed.

Lemma get_pending_devices_raises u now w e :
  client_available (settings w) = true ->
  raises_at 0 w e ->
  get_pending_devices fromisoformat u now w
  = (Returned [], after 1 w (store w)).
Proof.
  intros Hc He. unfold get_pending_devices.
  rewrite (bind_returned _ _ _ _ _ (client_available_ok _ Hc)).
  unfold try_except.
  match goal with |- context [bind ?m ?f w] =>
    replace (bind m f w) with (bind m f (after 0 w (store w)))
      by now rewrite after_0
  end.
  now call_raises He.
Qed.

(** X15. The listing is a read, and the same for everyone. The user id it is
    given plays no part in the result, and whatever the outcome the two
    tables are as before. *)
Theorem pending_listing_is_a_read_for_everyone u u' now w :
  get_pending_devices fromisoformat u now w
  = get_pending_devices fromisoformat u' now w
  /\ store (snd (get_pending_devices fromisoformat u now w)) = store w.
Proof.
  split; [reflexivity|].
  destruct (client_available (settings w)) eqn:Hc.
  - destruct (served_or_raises 0 w (served_0 w)) as [[e He]|H1].
    + now rewrite (get_pending_devices_raises u now w e Hc He).
    + now rewrite (get_pending_devices_served u now w Hc H1).
  - unfold get_pending_devices, bind, get_supabase_admin_client.
    unfold client_available in Hc.
    destruct (Py.truthy _); cbn in *; [|reflexivity]. now rewrite Hc.
Qed.

(** X16. A store failure during the listing looks like an empty table: the
    call returns the empty list, the same value a served call gives when no
    row is pending. *)
Theorem pending_listing_hides_store_failure u now w e w0 :
  client_available (settings w) = true ->
  raises_at 0 w e ->
  client_available (settings w0) = true ->
  served 1 w0 = true ->
  device_pairing_tokens (store w0) = [] ->
  fst (get_pending_devices fromisoformat u now w) = Returned []
  /\ fst (get_pending_devices fromisoformat u now w0) = Returned [].
Proof.
  intros Hc He Hc0 H1 Hempty.
  rewrite (get_pending_devices_raises u now w e Hc He).
  rewrite (get_pending_devices_served u now w0 Hc0 H1), Hempty.
  split; reflexivity.
Qed.

(** X17. A device that is listed has a live token. Each entry of the listing
    comes from a row of the table that is unclaimed and expires strictly
    after the instant of the listing; and a claim made at that instant with
    the token of such a row, if the row is the one the lookup finds and the
    store serves, is neither refused as invalid nor as expired: it succeeds
    or meets the ownership conflict. *)
Theorem listed_device_has_a_live_token u now w l p :
  client_available (settings w) = true ->
  served 4 w = true ->
  fst (get_pending_devices fromisoformat u now w) = Returned l ->
  In p l ->
  exists row x,
    In row (device_pairing_tokens (store w))
    /\ p = pending_of row
    /\ TokenRow.claimed_by row = None
    /\ parse_expires_at fromisoformat (TokenRow.expires_at row) = inr (Aware x)
    /\ now < x
    /\ (forall v clk,
          at_check clk = now ->
          looked_up (TokenRow.token row) (store w) = Some row ->
          fst (claim_device fromisoformat isoformat v (TokenRow.token row) clk w)
          = Returned (ClaimResult.mk true (Some (TokenRow.device_id row))
                        "Device claimed successfully")
          \/ fst (claim_device fromisoformat isoformat v (TokenRow.token row) clk w)
             = Returned (ClaimResult.mk false None
                           "Device is already claimed by another user")).
Proof.
  intros Hc H4 Hlist Hin.
  assert (H2 : served 2 w = true) by now do 2 apply served_fewer.
  assert (H1 : served 1 w = true) by now apply served_fewer.
  rewrite (get_pending_devices_served u now w Hc H1) in Hlist.
  injection Hlist as <-.
  apply in_map_iff in Hin as (row & <- & Hrow).
  apply List.filter_In in Hrow as [Hrow Hlive].
  unfold unclaimed_and_later, expiry_instant in Hlive.
  apply andb_true_iff in Hlive as [Hnull Hlater].
  destruct (parse_expires_at fromisoformat (TokenRow.expires_at row))
    as [e|[x|x]] eqn:Hp; try discriminate Hlater.
  apply Z.ltb_lt in Hlater.
  exists row, x. repeat split; auto.
  - now destruct (TokenRow.claimed_by row).
  - intros v clk Hclk Hl.
    assert (Hu : usable fromisoformat (TokenRow.token row) clk w row)
      by (econstructor; eauto; lia).
    destruct (owned_by_other v (TokenRow.device_id row) (store w)) eqn:Hob.
    + right.
      now rewrite (claim_run_sound _ _ _ _ _ _ _ _ _ Hc
                     (run_conflict fromisoformat isoformat v _ clk w row
                        Hu H2 Hob)).
    + left.
      now rewrite (claim_run_sound _ _ _ _ _ _ _ _ _ Hc
                     (run_success fromisoformat isoformat v _ clk w row
                        Hu Hob H4)).
Qed.

Lemma filter_marked t u stamp now (l : list TokenRow.t) :
  map pending_of
    (List.filter (unclaimed_and_later fromisoformat now)
       (map (mark_row t u stamp) l))
  = map pending_of
      (List.filter
         (fun r => unclaimed_and_later fromisoformat now r
                   && negb (String.eqb (TokenRow.token r) t)) l).
Proof.
  induction l as [|a l IH]; [reflexivity|]. cbn [map List.filter].
  destruct (String.eqb (TokenRow.token a) t) eqn:E; cbn [negb].
  - assert (Hm : unclaimed_and_later fromisoformat now (mark_row t u stamp a)
                 = false)
      by (unfold mark_row; rewrite E; reflexivity).
    rewrite Hm, andb_false_r. exact IH.
  - assert (Hm : mark_row t u stamp a = a)
      by (unfold mark_row; now rewrite E).
    rewrite Hm, andb_true_r.
    destruct (unclaimed_and_later fromisoformat now a); cbn [map];
      [f_equal|]; exact IH.
Qed.

(** X18. A device that has been claimed leaves the listing. After a
    successful claim with token [t] the listing shows what it would have
    shown before, less the rows that carry [t]. *)
Theorem claimed_token_leaves_the_listing u t clk w r w1 v now :
  claim_device fromisoformat isoformat u t clk w = (Returned r, w1) ->
  ClaimResult.success r = true ->
  served 1 w1 = true ->
  fst (get_pending_devices fromisoformat v now w1)
  = Returned
      (map pending_of
         (List.filter
            (fun row => unclaimed_and_later fromisoformat now row
                        && negb (String.eqb (TokenRow.token row) t))
            (device_pairing_tokens (store w)))).
Proof.
  intros Hrun Hwon H1.
  destruct (client_available (settings w)) eqn:Hc.
  2:{ destruct (claim_device_unconfigured fromisoformat isoformat u t clk w Hc)
        as [e He]. rewrite He in Hrun. discriminate. }
  destruct (claim_device_run fromisoformat isoformat u t clk w Hc)
    as (r' & s & n & Hpath & Heq).
  rewrite Heq in Hrun. injection Hrun as <- <-.
  destruct Hpath; try discriminate Hwon.
  rewrite get_pending_devices_served; [|exact Hc|exact H1].
  cbn [fst after store marked bound update_claimed upsert_device snd
       device_pairing_tokens].
  now rewrite filter_marked.
Qed.

(** X19. A device for which a token has just been issued is listed, once.
    If the stored expiry reads back as the instant written, then at any
    instant before it the listing has exactly one entry for the device,
    with that expiry. *)
Theorem issued_device_is_listed d tok now w p w1 v later :
  generate_pairing_token isoformat d tok now w = (Returned p, w1) ->
  parse_expires_at fromisoformat (isoformat (now + minutes 30))
  = inr (Aware (now + minutes 30)) ->
  served 1 w1 = true ->
  later < now + minutes 30 ->
  exists l,
    fst (get_pending_devices fromisoformat v later w1) = Returned l
    /\ List.filter (fun e => String.eqb (PendingDevice.device_id e) d) l
       = [PendingDevice.mk d (isoformat (now + minutes 30))].
Proof.
  intros Hgen Hcodec H1 Hlater.
  destruct (generate_pairing_token_run isoformat d tok now w)
    as [[_ [e He]]|[[_ [e He]]|(Hv & Hc & [(e & e' & _ & He)|[(e & e' & _ & He)|[_ He]]])]];
    rewrite He in Hgen; try discriminate Hgen.
  injection Hgen as _ <-.
  eexists. split.
  { rewrite get_pending_devices_served; [reflexivity|exact Hc|exact H1]. }
  cbn [after store insert_token delete_tokens_of snd device_pairing_tokens].
  rewrite List.filter_app, map_app, List.filter_app.
  assert (Hnone : forall l : list TokenRow.t,
             List.filter (fun e => String.eqb (PendingDevice.device_id e) d)
               (map pending_of
                  (List.filter (unclaimed_and_later fromisoformat later)
                     (List.filter
                        (fun r => negb (String.eqb (TokenRow.device_id r) d)) l)))
             = []).
  { induction l as [|a l IH]; [reflexivity|]. cbn [List.filter].
    destruct (String.eqb (TokenRow.device_id a) d) eqn:E; cbn [negb];
      [exact IH|].
    cbn [List.filter].
    destruct (unclaimed_and_later fromisoformat later a); [|exact IH].
    cbn [map List.filter pending_of PendingDevice.device_id].
    rewrite E. exact IH. }
  rewrite Hnone. cbn [app List.filter].
  unfold unclaimed_and_later, expiry_instant.
  cbn [TokenRow.claimed_by TokenRow.expires_at is_null andb].
  change (minutes PAIRING_TOKEN_VALIDITY_MINUTES) with (minutes 30).
  rewrite Hcodec.
  apply Z.ltb_lt in Hlater. rewrite Hlater.
  cbn [map List.filter pending_of PendingDevice.device_id TokenRow.device_id
       TokenRow.expires_at].
  now rewrite String.eqb_refl.
Qed.

End MoreResults.

(** ** The rate-limit key *)

Lemma lstrip_idem s : Text.lstrip (Text.lstrip s) = Text.lstrip s.
Proof.
  induction s as [|c s IH]; [reflexivity|]. simpl.
  destruct (Py.Py_UNICODE_ISSPACE c) eqn:E; [exact IH|].
  simpl. now rewrite E.
Qed.

Lemma lstrip_head s c r :
  Text.lstrip s = String c r -> Py.Py_UNICODE_ISSPACE c = false.
Proof.
  induction s as [|a s IH]; simpl; [discriminate|].
  destruct (Py.Py_UNICODE_ISSPACE a) eqn:E; [exact IH|].
  now intros [= <- _].
Qed.

Lemma lstrip_all_space s : Text.lstrip s = "" <-> Text.all_space s = true.
Proof.
  induction s as [|c s IH]; simpl; [tauto|].
  destruct (Py.Py_UNICODE_ISSPACE c); simpl; [exact IH|].
  split; discriminate.
Qed.

Lemma rstrip_all_space s : Text.rstrip s = "" <-> Text.all_space s = true.
Proof.
  destruct s as [|c s]; [simpl; tauto|].
  cbn [Text.rstrip].
  destruct (Text.all_space (String c s)); split; auto; discriminate.
Qed.

Lemma all_space_rstrip s :
  Text.all_space s = false -> Text.all_space (Text.rstrip s) = false.
Proof.
  induction s as [|c s IH]; [discriminate|]. intros H.
  cbn [Text.rstrip]. rewrite H. cbn [Text.all_space] in *.
  destruct (Py.Py_UNICODE_ISSPACE c); [|reflexivity]. cbn in *. auto.
Qed.

Lemma rstrip_idem s : Text.rstrip (Text.rstrip s) = Text.rstrip s.
Proof.
  induction s as [|c s IH]; [reflexivity|].
  cbn [Text.rstrip].
  destruct (Text.all_space (String c s)) eqn:E; [reflexivity|].
  pose proof (all_space_rstrip _ E) as E'.
  cbn [Text.rstrip] in E'. rewrite E in E'.
  cbn [Text.rstrip]. rewrite E'. now rewrite IH.
Qed.

Lemma lstrip_rstrip s :
  Text.lstrip (Text.rstrip (Text.lstrip s)) = Text.rstrip (Text.lstrip s).
Proof.
  destruct (Text.lstrip s) as [|c r] eqn:E; [reflexivity|].
  pose proof (lstrip_head _ _ _ E) as Hc.
  cbn [Text.rstrip Text.all_space]. rewrite Hc. cbn [andb Text.lstrip].
  now rewrite Hc.
Qed.

Lemma strip_idem s : Text.strip (Text.strip s) = Text.strip s.
Proof. unfold Text.strip. now rewrite lstrip_rstrip, rstrip_idem. Qed.

Lemma strip_empty s : Text.strip s = "" <-> Text.all_space s = true.
Proof.
  unfold Text.strip. rewrite rstrip_all_space.
  split.
  - intros H. apply lstrip_all_space.
    destruct (Text.lstrip s) as [|c r] eqn:E; [reflexivity|].
    pose proof (lstrip_head _ _ _ E) as Hc. cbn in H. now rewrite Hc in H.
  - intros H. apply lstrip_all_space in H. now rewrite H.
Qed.

Lemma before_comma_idem s :
  Text.before_comma (Text.before_comma s) = Text.before_comma s.
Proof.
  induction s as [|c s IH]; [reflexivity|]. simpl.
  destruct (Ascii.eqb c ",") eqn:E; [reflexivity|]. simpl. now rewrite E, IH.
Qed.

Lemma no_comma_cons c s :
  Text.before_comma (String c s) = String c s ->
  Ascii.eqb c "," = false /\ Text.before_comma s = s.
Proof.
  simpl. destruct (Ascii.eqb c ","); [discriminate|]. now intros [= ->].
Qed.

Lemma no_comma_lstrip s :
  Text.before_comma s = s -> Text.before_comma (Text.lstrip s) = Text.lstrip s.
Proof.
  induction s as [|c s IH]; [reflexivity|]. intros H.
  destruct (no_comma_cons _ _ H) as [Hc Hs].
  cbn [Text.lstrip]. destruct (Py.Py_UNICODE_ISSPACE c); auto.
Qed.

Lemma no_comma_rstrip s :
  Text.before_comma s = s -> Text.before_comma (Text.rstrip s) = Text.rstrip s.
Proof.
  induction s as [|c s IH]; [reflexivity|]. intros H.
  destruct (no_comma_cons _ _ H) as [Hc Hs].
  cbn [Text.rstrip]. destruct (Text.all_space (String c s)); [reflexivity|].
  cbn [Text.before_comma]. rewrite Hc. now rewrite (IH Hs).
Qed.

Lemma before_comma_append k rest :
  Text.before_comma k = k ->
  Text.before_comma (k ++ String "," rest) = k.
Proof.
  induction k as [|c k IH]; [reflexivity|]. intros H.
  destruct (no_comma_cons _ _ H) as [Hc Hk].
  simpl. rewrite Hc. now rewrite (IH Hk).
Qed.

Lemma truthy_header_Some f :
  f <> "" -> truthy_header (Some f) = true.
Proof. intros H. cbn. now apply truthy_nonempty. Qed.

(** X20. When a request carries a non-empty [X-Forwarded-For], the key is
    made from that header alone: the text before its first comma, trimmed.
    So the key holds no comma and no blank at either end (it is its own
    first field and its own trimmed text), and it is the empty text exactly
    when the first field is all blanks, whatever [X-Real-IP] and the peer
    address are. *)
Theorem forwarded_key_is_first_field_trimmed request f :
  headers_get request "X-Forwarded-For" = Some f ->
  f <> "" ->
  let key := get_rate_limit_key request in
  key = Text.strip (Text.before_comma f)
  /\ Text.before_comma key = key
  /\ Text.strip key = key
  /\ (key = "" <-> Text.all_space (Text.before_comma f) = true).
Proof.
  intros Hf Hne key. subst key. unfold get_rate_limit_key.
  rewrite Hf, (truthy_header_Some f Hne). cbn [header_text].
  split; [reflexivity|]. split; [|split].
  - unfold Text.strip.
    apply no_comma_rstrip, no_comma_lstrip, before_comma_idem.
  - apply strip_idem.
  - apply strip_empty.
Qed.

(** X21. The key is the caller's choice. For any non-empty text without
    comma and without blanks at its ends, a request whose first header
    field [X-Forwarded-For] starts with that text gets it as its key,
    whatever else the request carries and whatever address it comes from. *)
Theorem rate_limit_key_is_the_callers_choice k rest others peer :
  k <> "" ->
  Text.before_comma k = k ->
  Text.strip k = k ->
  get_rate_limit_key
    (Request.mk (("x-forwarded-for", k ++ String "," rest) :: others) peer) = k
  /\ get_rate_limit_key
       (Request.mk (("x-forwarded-for", k) :: others) peer) = k.
Proof.
  intros Hne Hcomma Hstrip.
  unfold get_rate_limit_key, headers_get.
  cbn [Request.headers].
  change (Text.lower "X-Forwarded-For") with "x-forwarded-for".
  cbn [raw_get]. rewrite !String.eqb_refl.
  assert (Hk : Py.truthy k = true) by now apply truthy_nonempty.
  assert (Hk' : Py.truthy (k ++ String "," rest) = true)
    by (destruct k; [contradiction|reflexivity]).
  cbn [truthy_header header_text]. rewrite Hk, Hk'.
  rewrite (before_comma_append k rest Hcomma), Hcomma, Hstrip.
  split; reflexivity.
Qed.

(** ** The preview of an API key *)

(** X22. The preview shows at most the first eight characters of a key,
    followed by an ellipsis, and is empty only for the empty key. Keys that
    agree on their first eight characters have the same preview; a key of
    up to eight characters is shown whole. *)
Theorem token_preview_shows_eight_characters token :
  (String.length (token_preview token) <= 11)%nat
  /\ (token_preview token = "" <-> token = "")
  /\ (forall other,
        token <> "" -> other <> "" ->
        Py.prefix 8 token = Py.prefix 8 other ->
        token_preview token = token_preview other)
  /\ (token <> "" -> (String.length token <= 8)%nat ->
      token_preview token = token ++ "...").
Proof.
  unfold token_preview. repeat split.
  - destruct (Py.truthy token); [|cbn; lia].
    rewrite length_append, length_prefix.
    change (String.length "...") with 3%nat. lia.
  - destruct token; [reflexivity|]. cbn. discriminate.
  - now intros ->.
  - intros other Ht Ho Hp.
    apply truthy_nonempty in Ht, Ho. now rewrite Ht, Ho, Hp.
  - intros Ht Hlen. apply truthy_nonempty in Ht. rewrite Ht.
    f_equal. clear Ht. revert Hlen. generalize 8%nat as n.
    induction token as [|c s IH]; intros n Hlen; [now destruct n|].
    destruct n as [|n]; [cbn in Hlen; lia|].
    cbn. f_equal. apply IH. cbn in Hlen. lia.
Qed.

(** ** The further results at the sample data *)

Lemma issuer_turns_store_errors_into_500_witness :
  fst (Sample.generate "a1b2c3d4" "tok-2" Sample.noon More.drops_insert)
  = Raised (HTTPException 500 "Failed to generate pairing token").
Proof.
  apply (issuer_turns_store_errors_into_500 IsoUtc.isoformat "a1b2c3d4"
           "tok-2" Sample.noon More.drops_insert 1 "ReadTimeout" "timed out");
    try reflexivity.
  - split; reflexivity.
  - lia.
Defined.

Lemma failed_insert_leaves_device_without_token_witness :
  device_pairing_tokens (store More.drops_insert) = [Sample.fresh_row]
  /\ forall r,
       In r (device_pairing_tokens
               (store (snd (Sample.generate "a1b2c3d4" "tok-2" Sample.noon
                              More.drops_insert)))) ->
       TokenRow.device_id r <> "a1b2c3d4".
Proof.
  split; [reflexivity|].
  apply (failed_insert_leaves_device_without_token IsoUtc.isoformat
           "a1b2c3d4" "tok-2" Sample.noon More.drops_insert
           "ReadTimeout" "timed out");
    try reflexivity.
  split; reflexivity.
Defined.

Lemma issued_token_claims_the_device_witness :
  exists w2 dev,
    Sample.claim "alice" "tok-2" (Sample.at_ (Sample.noon + minutes 30))
      Sample.reissued
    = (Returned (ClaimResult.mk true (Some "a1b2c3d4")
                   "Device claimed successfully"), w2)
    /\ devices (store w2) !! "a1b2c3d4" = Some dev
    /\ DeviceRow.user_id dev = Some "alice"
    /\ DeviceRow.name dev = "Tronbyt-a1b2"
    /\ String.length (DeviceRow.name dev) = 12%nat.
Proof.
  assert (Hgen : generate_pairing_token IsoUtc.isoformat "a1b2c3d4" "tok-2"
                   Sample.noon Sample.waiting
                 = (Returned (PairingToken.mk "a1b2c3d4" "tok-2"
                                (Sample.noon + minutes 30)),
                    Sample.reissued))
    by (vm_compute; reflexivity).
  apply (issued_token_claims_the_device IsoUtc.fromisoformat IsoUtc.isoformat
           "a1b2c3d4" "tok-2" Sample.noon Sample.waiting _ _ "alice"
           (Sample.at_ (Sample.noon + minutes 30)) Hgen);
    try reflexivity.
  intros r [<-|[]]. discriminate.
Defined.

Lemma claimed_token_is_spent_witness :
  Sample.claim "bob" "tok-1" (Sample.at_ (Sample.noon + 5)) More.claimed
  = (Returned (ClaimResult.mk false None "Invalid or expired pairing token"),
     after 1 More.claimed (store More.claimed)).
Proof.
  apply (claimed_token_is_spent IsoUtc.fromisoformat IsoUtc.isoformat
           "alice" "tok-1" (Sample.at_ Sample.noon) Sample.waiting
           (claimed_successfully "a1b2c3d4") More.claimed "bob"
           (Sample.at_ (Sample.noon + 5)));
    reflexivity.
Defined.

Lemma failed_marking_leaves_device_bound_witness :
  exists w1,
    Sample.claim "alice" "tok-1" (Sample.at_ Sample.noon) More.drops_update
    = (Returned (ClaimResult.mk false None "Failed to claim device: timed out"),
       w1)
    /\ (exists dev, devices (store w1) !! "a1b2c3d4" = Some dev
                    /\ DeviceRow.user_id dev = Some "alice")
    /\ device_pairing_tokens (store w1) = [Sample.fresh_row].
Proof.
  destruct (failed_marking_leaves_device_bound IsoUtc.fromisoformat
              IsoUtc.isoformat "alice" "tok-1" (Sample.at_ Sample.noon)
              More.drops_update Sample.fresh_row (Sample.noon + minutes 30)
              (Error "ReadTimeout" "timed out"))
    as (w1 & Hrun & Hdev & Htok & _);
    try reflexivity.
  - split; reflexivity.
  - vm_compute. discriminate.
  - exists w1. split; [exact Hrun|]. split; [exact Hdev|exact Htok].
Defined.

Lemma unreadable_expiry_blocks_the_token_witness :
  expiry_instant IsoUtc.fromisoformat More.garbled_row = None
  /\ exists e,
       Sample.claim "alice" "tok-3" (Sample.at_ Sample.noon) More.garbled
       = (Returned (ClaimResult.mk false None
                      ("Failed to claim device: " ++ str e)),
          after 1 More.garbled (store More.garbled)).
Proof.
  split; [reflexivity|].
  apply (unreadable_expiry_blocks_the_token IsoUtc.fromisoformat
           IsoUtc.isoformat "alice" "tok-3" (Sample.at_ Sample.noon)
           More.garbled More.garbled_row);
    reflexivity.
Defined.

Lemma routes_refuse_before_the_store_witness :
  (exists text,
     claim_device_endpoint IsoUtc.fromisoformat IsoUtc.isoformat "tok-1"
       (Some More.carol) (Sample.at_ Sample.noon) More.local_mode
     = (Raised (Error "RuntimeError" text), More.local_mode))
  /\ claim_device_endpoint IsoUtc.fromisoformat IsoUtc.isoformat "tok-1"
       None (Sample.at_ Sample.noon) Sample.waiting
     = (Raised (HTTPException 401 "Not authenticated"), Sample.waiting)
  /\ generate_pairing_token_endpoint IsoUtc.isoformat "a1b2c3d4" "tok-2"
       Sample.noon More.local_mode
     = (Raised (HTTPException 400 "Supabase authentication is not enabled"),
        More.local_mode)
  /\ generate_pairing_token_endpoint IsoUtc.isoformat "12-45678" "tok-2"
       Sample.noon More.keyless
     = (Raised (HTTPException 400
                  "Invalid device ID format. Must be 8 hex characters."),
        More.keyless).
Proof.
  pose proof (routes_refuse_before_the_store IsoUtc.fromisoformat
                IsoUtc.isoformat (Some More.carol) "tok-1"
                (Sample.at_ Sample.noon) "a1b2c3d4" "tok-2" Sample.noon
                More.local_mode) as (Hclient & _ & Hoff & _).
  pose proof (routes_refuse_before_the_store IsoUtc.fromisoformat
                IsoUtc.isoformat None "tok-1" (Sample.at_ Sample.noon)
                "a1b2c3d4" "tok-2" Sample.noon Sample.waiting)
    as (_ & H401 & _ & _).
  pose proof (routes_refuse_before_the_store IsoUtc.fromisoformat
                IsoUtc.isoformat None "tok-1" (Sample.at_ Sample.noon)
                "12-45678" "tok-2" Sample.noon More.keyless)
    as (_ & _ & _ & Hbad).
  split; [apply Hclient; reflexivity|].
  split; [apply H401; reflexivity|].
  split; [apply Hoff; reflexivity|].
  apply Hbad; reflexivity.
Defined.

Lemma claim_route_lets_client_error_through_witness :
  exists text,
    claim_device_endpoint IsoUtc.fromisoformat IsoUtc.isoformat "tok-1"
      (Some More.carol) (Sample.at_ Sample.noon) More.keyless
    = (Raised (Error "RuntimeError" text), More.keyless).
Proof.
  apply (proj2 (claim_route_lets_client_error_through IsoUtc.fromisoformat
                  IsoUtc.isoformat (Some More.carol) "tok-1"
                  (Sample.at_ Sample.noon) More.keyless) More.carol);
    reflexivity.
Defined.

Lemma claim_route_answers_witness :
  exists resp r w',
    claim_device_endpoint IsoUtc.fromisoformat IsoUtc.isoformat "tok-1"
      (Some More.carol) (Sample.at_ Sample.noon) Sample.waiting
    = (Returned resp, w')
    /\ claim_device IsoUtc.fromisoformat IsoUtc.isoformat "carol" "tok-1"
         (Sample.at_ Sample.noon) Sample.waiting = (Returned r, w')
    /\ JSONResponse.status_code resp = 200.
Proof.
  destruct (claim_route_answers IsoUtc.fromisoformat IsoUtc.isoformat
              More.carol "tok-1" (Sample.at_ Sample.noon) Sample.waiting
              eq_refl)
    as (resp & r & w' & Hroute & Hcall & Hcases).
  exists resp, r, w'. split; [exact Hroute|]. split; [exact Hcall|].
  destruct Hcases as [[H200 _]|(_ & Hfail & _)]; [exact H200|].
  exfalso.
  assert (Heval : fst (claim_device IsoUtc.fromisoformat IsoUtc.isoformat
                         "carol" "tok-1" (Sample.at_ Sample.noon)
                         Sample.waiting)
                  = Returned (claimed_successfully "a1b2c3d4"))
    by (vm_compute; reflexivity).
  change (SupabaseUser.id More.carol) with "carol" in Hcall.
  rewrite Hcall in Heval. cbn [fst] in Heval. injection Heval as Hr.
  rewrite Hr in Hfail. discriminate Hfail.
Defined.

Lemma issuing_route_reports_the_stored_row_witness :
  exists resp w',
    generate_pairing_token_endpoint IsoUtc.isoformat "a1b2c3d4" "tok-2"
      Sample.noon Sample.waiting = (Returned resp, w')
    /\ JSONResponse.status_code resp = 201
    /\ JSONResponse.content resp
       = [("device_id", JString "a1b2c3d4"); ("token", JString "tok-2");
          ("expires_at", JString "2024-05-01T13:00:00+00:00")].
Proof.
  eexists _, _.
  assert (Hroute : generate_pairing_token_endpoint IsoUtc.isoformat
                     "a1b2c3d4" "tok-2" Sample.noon Sample.waiting
                   = (Returned
                        (JSONResponse.mk 201
                           [("device_id", JString "a1b2c3d4");
                            ("token", JString "tok-2");
                            ("expires_at", JString "2024-05-01T13:00:00+00:00")]),
                      Sample.reissued))
    by (vm_compute; reflexivity).
  split; [exact Hroute|].
  split; [|reflexivity].
  exact (proj1 (issuing_route_reports_the_stored_row IsoUtc.isoformat
                  "a1b2c3d4" "tok-2" Sample.noon Sample.waiting _ _ Hroute)).
Defined.

Lemma pending_listing_hides_store_failure_witness :
  fst (get_pending_devices IsoUtc.fromisoformat "bob" Sample.noon
         Sample.unreachable) = Returned []
  /\ fst (get_pending_devices IsoUtc.fromisoformat "bob" Sample.noon
            Sample.nothing_out) = Returned [].
Proof.
  apply (pending_listing_hides_store_failure IsoUtc.fromisoformat "bob"
           Sample.noon Sample.unreachable
           (Error "ConnectError" "connection reset") Sample.nothing_out);
    try reflexivity.
  split; reflexivity.
Defined.

Lemma listed_device_has_a_live_token_witness :
  fst (get_pending_devices IsoUtc.fromisoformat "bob" Sample.noon Sample.taken)
  = Returned [pending_of Sample.fresh_row]
  /\ exists row x,
       In row (device_pairing_tokens (store Sample.taken))
       /\ pending_of Sample.fresh_row = pending_of row
       /\ TokenRow.claimed_by row = None
       /\ parse_expires_at IsoUtc.fromisoformat (TokenRow.expires_at row)
          = inr (Aware x)
       /\ Sample.noon < x.
Proof.
  assert (Hlist : fst (get_pending_devices IsoUtc.fromisoformat "bob"
                         Sample.noon Sample.taken)
                  = Returned [pending_of Sample.fresh_row])
    by (vm_compute; reflexivity).
  split; [exact Hlist|].
  destruct (listed_device_has_a_live_token IsoUtc.fromisoformat
              IsoUtc.isoformat "bob" Sample.noon Sample.taken _
              (pending_of Sample.fresh_row) eq_refl eq_refl Hlist)
    as (row & x & Hin & Hp & Hn & Hparse & Hlt & _).
  - now left.
  - exists row, x. repeat split; assumption.
Defined.

Lemma claimed_token_leaves_the_listing_witness :
  fst (get_pending_devices IsoUtc.fromisoformat "bob" Sample.noon More.claimed)
  = Returned [].
Proof.
  assert (H := claimed_token_leaves_the_listing IsoUtc.fromisoformat
                 IsoUtc.isoformat "alice" "tok-1" (Sample.at_ Sample.noon)
                 Sample.waiting (claimed_successfully "a1b2c3d4")
                 More.claimed "bob" Sample.noon).
  rewrite H; reflexivity.
Defined.

Lemma issued_device_is_listed_witness :
  exists l,
    fst (get_pending_devices IsoUtc.fromisoformat "bob" (Sample.noon + 5)
           Sample.reissued) = Returned l
    /\ List.filter (fun e => String.eqb (PendingDevice.device_id e) "a1b2c3d4") l
       = [PendingDevice.mk "a1b2c3d4" "2024-05-01T13:00:00+00:00"].
Proof.
  assert (Hgen : generate_pairing_token IsoUtc.isoformat "a1b2c3d4" "tok-2"
                   Sample.noon Sample.waiting
                 = (Returned (PairingToken.mk "a1b2c3d4" "tok-2"
                                (Sample.noon + minutes 30)),
                    Sample.reissued))
    by (vm_compute; reflexivity).
  apply (issued_device_is_listed IsoUtc.fromisoformat IsoUtc.isoformat
           "a1b2c3d4" "tok-2" Sample.noon Sample.waiting _ _ "bob"
           (Sample.noon + 5) Hgen);
    reflexivity.
Defined.

Lemma forwarded_key_is_first_field_trimmed_witness :
  get_rate_limit_key More.proxied = "203.0.113.9"
  /\ Text.before_comma (get_rate_limit_key More.proxied)
     = get_rate_limit_key More.proxied
  /\ Text.strip (get_rate_limit_key More.proxied)
     = get_rate_limit_key More.proxied.
Proof.
  destruct (forwarded_key_is_first_field_trimmed More.proxied
              " 203.0.113.9 , 10.0.0.1" eq_refl)
    as (Hkey & Hcomma & Hstrip & _).
  - discriminate.
  - split; [rewrite Hkey; reflexivity|]. split; assumption.
Defined.

Lemma rate_limit_key_is_the_callers_choice_witness :
  get_rate_limit_key
    (Request.mk [("x-forwarded-for", "198.51.100.7, 203.0.113.9");
                 ("x-real-ip", "203.0.113.9")] (Some "203.0.113.9"))
  = "198.51.100.7".
Proof.
  assert (Hne : "198.51.100.7" <> "") by discriminate.
  exact (proj1 (rate_limit_key_is_the_callers_choice "198.51.100.7"
                  " 203.0.113.9" [("x-real-ip", "203.0.113.9")]
                  (Some "203.0.113.9") Hne eq_refl eq_refl)).
Defined.
